(** * CookBook: search-and-ranking layer

    A shallow embedding of the search service ([src/search/search.service.ts]),
    the recipe deletion mutation ([src/recipes/recipes.service.ts]) and the
    trending ranker ([src/ai/ai.service.ts]).

    The two backends the services talk to are modelled as explicit state:
    the Primary Store is the table of recipe rows behind the Prisma client,
    the index is the keyed document collection behind the Elasticsearch
    client.  A call that can throw returns a [Result].  JavaScript numbers
    that hold scores are exact rationals ([Q]); timestamps are milliseconds
    since the epoch ([Z]); offsets and page sizes ([skip], [take], [from],
    [size]) are naturals. *)

From Stdlib Require Import QArith Qminmax ZArith String Ascii List Bool Lia Lqa.
From Stdlib Require Import Permutation Sorted.
From stdpp Require Import base gmap strings list pretty.
Import ListNotations.

Set Warnings "-abstract-large-number".
Local Open Scope string_scope.

(** ** Outcomes of fallible calls *)

Inductive Error : Type :=
| ConnectionError (message : string)
| ResponseError (statusCode : Z) (message : string)
| HttpException (message : string) (status : Z)
| NotFoundException (message : string)
| ForbiddenException (message : string)
| PrismaClientError (message : string).

Inductive Result (A : Type) : Type :=
| Ok (value : A)
| Err (error : Error).

Arguments Ok {A} value.
Arguments Err {A} error.

(** ** JavaScript helpers *)

Module Js.

(** [if (s)] on a string: the empty string is falsy. *)
Definition truthy_string (s : string) : bool :=
  match s with EmptyString => false | String _ _ => true end.

(** [if (o)] on an optional string ([undefined] is falsy). *)
Definition truthy_opt_string (o : option string) : bool :=
  match o with Some s => truthy_string s | None => false end.

(** [if (n)] on an optional integer: [undefined] and [0] are falsy. *)
Definition truthy_opt_int (o : option Z) : bool :=
  match o with Some n => negb (n =? 0)%Z | None => false end.

(** [xs && xs.length > 0] on an optional array. *)
Definition non_empty {A : Type} (o : option (list A)) : bool :=
  match o with Some (_ :: _) => true | _ => false end.

Definition lower_ascii (c : ascii) : ascii :=
  let n := nat_of_ascii c in
  if (65 <=? n)%nat && (n <=? 90)%nat then ascii_of_nat (n + 32) else c.

Definition upper_ascii (c : ascii) : ascii :=
  let n := nat_of_ascii c in
  if (97 <=? n)%nat && (n <=? 122)%nat then ascii_of_nat (n - 32) else c.

Fixpoint map_string (f : ascii -> ascii) (s : string) : string :=
  match s with
  | EmptyString => EmptyString
  | String c t => String (f c) (map_string f t)
  end.

(** [s.toLowerCase()] and [s.toUpperCase()], on ASCII text. *)
Definition toLowerCase (s : string) : string := map_string lower_ascii s.
Definition toUpperCase (s : string) : string := map_string upper_ascii s.

(** [hay.includes(needle)] *)
Fixpoint includes (hay needle : string) : bool :=
  String.prefix needle hay ||
  match hay with
  | EmptyString => false
  | String _ t => includes t needle
  end.

(** [xs.includes(x)] on an array of strings. *)
Definition array_includes (xs : list string) (x : string) : bool :=
  existsb (String.eqb x) xs.

(** [o || d] on an optional string. *)
Definition string_or (o : option string) (d : string) : string :=
  match o with
  | Some s => if truthy_string s then s else d
  | None => d
  end.

(** [o || d] on an optional integer. *)
Definition int_or (o : option Z) (d : Z) : Z :=
  match o with
  | Some n => if (n =? 0)%Z then d else n
  | None => d
  end.

(** [Math.min(a, b)] on naturals. *)
Definition math_min (a b : nat) : nat := Nat.min a b.

(** [xs.join(sep)] *)
Fixpoint join (sep : string) (xs : list string) : string :=
  match xs with
  | [] => EmptyString
  | [x] => x
  | x :: rest => x ++ sep ++ join sep rest
  end.

(** [[...new Set(xs)]] and [distinct]: the first occurrence of each value,
    in order. *)
Fixpoint unique_from {A : Type} (eqb : A -> A -> bool) (seen l : list A) : list A :=
  match l with
  | [] => []
  | x :: l' =>
      if existsb (eqb x) seen then unique_from eqb seen l'
      else x :: unique_from eqb (x :: seen) l'
  end.

Definition unique {A : Type} (eqb : A -> A -> bool) (l : list A) : list A :=
  unique_from eqb [] l.

(** A string of ASCII characters, on which [toLowerCase] and
    [toUpperCase] above are the JavaScript ones. *)
Fixpoint is_ascii (s : string) : bool :=
  match s with
  | EmptyString => true
  | String c t => (nat_of_ascii c <? 128)%nat && is_ascii t
  end.

End Js.

(** ** Stable sorting

    [Array.prototype.sort], the store's [orderBy] and the index's score
    ordering are all stable sorts; [before x y] says that [x] may stay in
    front of [y]. *)

Section Sorting.
Context {A : Type} (before : A -> A -> bool).

Fixpoint insert_by (x : A) (l : list A) : list A :=
  match l with
  | [] => [x]
  | y :: l' => if before x y then x :: y :: l' else y :: insert_by x l'
  end.

Fixpoint sort_by (l : list A) : list A :=
  match l with
  | [] => []
  | x :: l' => insert_by x (sort_by l')
  end.
End Sorting.

(** ** The Primary Store (Prisma client)

    A recipe row carries its relations (ingredients, instructions, ratings,
    comments) nested, as [include] returns them. *)

Module Prisma.

Record Ingredient := { name : string; order : Z }.
Record Instruction := { step : string; stepOrder : Z }.
Record Rating := { rating : Z; userId : string }.
Record Comment := { content : string; commentUserId : string }.

Record RecipeRow := {
  id : string;
  title : string;
  description : option string;
  prepTime : option Z;
  cookTime : option Z;
  servings : option Z;
  difficulty : string;
  cuisine : option string;
  tags : list string;
  isPublic : bool;
  authorId : string;
  createdAt : Z;
  updatedAt : Z;
  ingredients : list Ingredient;
  instructions : list Instruction;
  ratings : list Rating;
  comments : list Comment
}.

(** [_count: { select: { ratings: true, comments: true } }] *)
Record RecipeCount := { count_ratings : nat; count_comments : nat }.

(** A recipe as [findMany] returns it with its includes. *)
Record Recipe := { row : RecipeRow; _count : RecipeCount }.

Definition with_count (r : RecipeRow) : Recipe :=
  {| row := r;
     _count := {| count_ratings := length (ratings r);
                  count_comments := length (comments r) |} |}.

(** The [where] objects the services build.  An absent key constrains
    nothing; present keys are ANDed. *)
Record Where := {
  where_isPublic : option bool;
  (** [OR: [{title: {contains, mode: 'insensitive'}},
            {description: {contains, mode: 'insensitive'}}]] *)
  where_OR_contains : option string;
  where_difficulty : option string;
  (** [cuisine: {contains, mode: 'insensitive'}] *)
  where_cuisine_contains : option string;
  (** [tags: {hasSome}] *)
  where_tags_hasSome : option (list string);
  (** [ingredients: {some: {name: {in, mode: 'insensitive'}}}] *)
  where_ingredients_some_name_in : option (list string);
  (** [prepTime: {lte}] and [cookTime: {lte}] *)
  where_prepTime_lte : option Z;
  where_cookTime_lte : option Z
}.

Definition where_all : Where :=
  {| where_isPublic := None; where_OR_contains := None;
     where_difficulty := None; where_cuisine_contains := None;
     where_tags_hasSome := None; where_ingredients_some_name_in := None;
     where_prepTime_lte := None; where_cookTime_lte := None |}.

(** [{contains: q, mode: 'insensitive'}] on a text column. *)
Definition contains_insensitive (field q : string) : bool :=
  Js.includes (Js.toLowerCase field) (Js.toLowerCase q).

(** The same on a nullable column: NULL never matches. *)
Definition contains_insensitive_opt (field : option string) (q : string) : bool :=
  match field with Some s => contains_insensitive s q | None => false end.

(** [{in: xs, mode: 'insensitive'}] *)
Definition in_insensitive (field : string) (xs : list string) : bool :=
  existsb (fun x => String.eqb (Js.toLowerCase field) (Js.toLowerCase x)) xs.

(** [{hasSome: xs}] on a string array column. *)
Definition hasSome (field xs : list string) : bool :=
  existsb (fun x => Js.array_includes field x) xs.

(** [{lte: n}] on a nullable integer column. *)
Definition lte_opt (field : option Z) (n : Z) : bool :=
  match field with Some v => (v <=? n)%Z | None => false end.

Definition when {A : Type} (o : option A) (p : A -> bool) : bool :=
  match o with Some a => p a | None => true end.

Definition where_matches (w : Where) (r : RecipeRow) : bool :=
  when (where_isPublic w) (fun b => Bool.eqb (isPublic r) b)
  && when (where_OR_contains w) (fun q =>
       contains_insensitive (title r) q || contains_insensitive_opt (description r) q)
  && when (where_difficulty w) (fun d => String.eqb (difficulty r) d)
  && when (where_cuisine_contains w) (fun c => contains_insensitive_opt (cuisine r) c)
  && when (where_tags_hasSome w) (fun ts => hasSome (tags r) ts)
  && when (where_ingredients_some_name_in w) (fun xs =>
       existsb (fun i => in_insensitive (name i) xs) (ingredients r))
  && when (where_prepTime_lte w) (fun n => lte_opt (prepTime r) n)
  && when (where_cookTime_lte w) (fun n => lte_opt (cookTime r) n).

(** The client: unreachable when [fault] is set, else the recipe table. *)
Record Client := { fault : option Error; recipes : list RecipeRow }.

(** [orderBy: { createdAt: 'desc' }] *)
Definition createdAt_desc (x y : RecipeRow) : bool :=
  (createdAt y <=? createdAt x)%Z.

(** [recipe.findMany({ where, include, orderBy: {createdAt: 'desc'}, skip, take })];
    the included relations are answered in the order the row holds them. *)
Definition findMany (db : Client) (w : Where) (skip take : nat) : Result (list Recipe) :=
  match fault db with
  | Some e => Err e
  | None =>
      Ok (map with_count
            (firstn take (skipn skip
               (sort_by createdAt_desc (List.filter (where_matches w) (recipes db))))))
  end.

(** [recipe.count({ where })] *)
Definition count (db : Client) (w : Where) : Result nat :=
  match fault db with
  | Some e => Err e
  | None => Ok (length (List.filter (where_matches w) (recipes db)))
  end.

(** [recipe.findUnique({ where: { id } })] *)
Definition findUnique (db : Client) (i : string) : Result (option RecipeRow) :=
  match fault db with
  | Some e => Err e
  | None => Ok (List.find (fun r => String.eqb (id r) i) (recipes db))
  end.

(** [recipe.create({ data })], with the row as the store completes it. *)
Definition create (db : Client) (r : RecipeRow) : Result Client :=
  match fault db with
  | Some e => Err e
  | None => Ok {| fault := None; recipes := recipes db ++ [r] |}
  end.

(** [recipe.delete({ where: { id } })] *)
Definition delete (db : Client) (i : string) : Result Client :=
  match fault db with
  | Some e => Err e
  | None =>
      if existsb (fun r => String.eqb (id r) i) (recipes db)
      then Ok {| fault := None;
                 recipes := List.filter (fun r => negb (String.eqb (id r) i)) (recipes db) |}
      else Err (PrismaClientError "Record to delete does not exist.")
  end.

(** [ingredient.findMany({ where: { name: { contains, mode: 'insensitive' } },
    select: { name: true }, distinct: ['name'], take })] over the ingredient
    rows of all recipes. *)
Definition ingredient_findMany_names (db : Client) (q : string) (take : nat)
  : Result (list string) :=
  match fault db with
  | Some e => Err e
  | None =>
      Ok (firstn take
            (Js.unique String.eqb
               (List.filter (fun n => contains_insensitive n q)
                  (map name (flat_map ingredients (recipes db))))))
  end.

Definition opt_string_eqb (a b : option string) : bool :=
  match a, b with
  | Some x, Some y => String.eqb x y
  | None, None => true
  | _, _ => false
  end.

(** [recipe.findMany({ where: { cuisine: { contains, mode: 'insensitive' } },
    select: { cuisine: true }, distinct: ['cuisine'], take })] *)
Definition recipe_findMany_cuisines (db : Client) (q : string) (take : nat)
  : Result (list (option string)) :=
  match fault db with
  | Some e => Err e
  | None =>
      Ok (firstn take
            (Js.unique opt_string_eqb
               (map cuisine
                  (List.filter (fun r => contains_insensitive_opt (cuisine r) q)
                     (recipes db)))))
  end.

(** [recipe.findMany({ where: { tags: { hasSome } }, select: { tags: true }, take })],
    in table order. *)
Definition recipe_findMany_tags (db : Client) (some : list string) (take : nat)
  : Result (list (list string)) :=
  match fault db with
  | Some e => Err e
  | None =>
      Ok (map tags (firstn take (List.filter (fun r => hasSome (tags r) some) (recipes db))))
  end.

End Prisma.

(** ** The index backend (Elasticsearch client)

    The index maps a document id to the document stored under it.  Term,
    terms and range clauses follow the field mapping of [createIndex];
    analysed full-text matching and scoring belong to the engine and are
    the backend's [Relevance]. *)

Module Elasticsearch.

(** The document written by [indexRecipe] and [indexAllRecipes]. *)
Record Document := {
  id : string;
  title : string;
  description : option string;
  ingredients : string;
  instructions : string;
  tags : list string;
  difficulty : string;
  cuisine : option string;
  prepTime : option Z;
  cookTime : option Z;
  servings : option Z;
  authorId : string;
  isPublic : bool;
  createdAt : Z;
  updatedAt : Z
}.

(** [_source: ['id', 'title', 'description', 'prepTime', 'cookTime',
    'servings', 'difficulty', 'cuisine', 'tags', 'authorId', 'isPublic']] *)
Record Source := {
  source_id : string;
  source_title : string;
  source_description : option string;
  source_prepTime : option Z;
  source_cookTime : option Z;
  source_servings : option Z;
  source_difficulty : string;
  source_cuisine : option string;
  source_tags : list string;
  source_authorId : string;
  source_isPublic : bool
}.

Definition source_of (d : Document) : Source :=
  {| source_id := id d; source_title := title d;
     source_description := description d;
     source_prepTime := prepTime d; source_cookTime := cookTime d;
     source_servings := servings d; source_difficulty := difficulty d;
     source_cuisine := cuisine d; source_tags := tags d;
     source_authorId := authorId d; source_isPublic := isPublic d |}.

Inductive Value : Type :=
| VString (s : string)
| VBool (b : bool)
| VInt (n : Z).

Definition value_eqb (a b : Value) : bool :=
  match a, b with
  | VString x, VString y => String.eqb x y
  | VBool x, VBool y => Bool.eqb x y
  | VInt x, VInt y => (x =? y)%Z
  | _, _ => false
  end.

Definition opt_values {A : Type} (f : A -> Value) (o : option A) : list Value :=
  match o with Some a => [f a] | None => [] end.

(** The exact values a document holds under a keyword, boolean or
    integer field of the mapping; a field the document lacks holds none. *)
Definition field_values (d : Document) (field : string) : list Value :=
  match field with
  | "id" => [VString (id d)]
  | "title.keyword" => [VString (title d)]
  | "description.keyword" => opt_values VString (description d)
  | "ingredients.keyword" => [VString (ingredients d)]
  | "tags" => map VString (tags d)
  | "difficulty" => [VString (difficulty d)]
  | "cuisine" => opt_values VString (cuisine d)
  | "prepTime" => opt_values VInt (prepTime d)
  | "cookTime" => opt_values VInt (cookTime d)
  | "servings" => opt_values VInt (servings d)
  | "authorId" => [VString (authorId d)]
  | "isPublic" => [VBool (isPublic d)]
  | _ => []
  end.

(** The query clauses the service builds. *)
#[local] Unset Elimination Schemes.
Inductive Query : Type :=
| term (field : string) (value : Value)
| terms (field : string) (values : list string)
| range_lte (field : string) (lte : Z)
| multi_match (query : string) (fields : list (string * Q)) (fuzziness : string)
| bool (must : list Query) (should : list Query) (minimum_should_match : nat).

#[local] Set Elimination Schemes.

(** The engine's analysed text matching and its scoring. *)
Record Relevance := {
  multi_match_hit : string -> list (string * Q) -> string -> Document -> Datatypes.bool;
  _score : Query -> Document -> Q
}.

Definition range_lte_value (n : Z) (v : Value) : Datatypes.bool :=
  match v with VInt x => (x <=? n)%Z | _ => false end.

Fixpoint matches (rel : Relevance) (d : Document) (q : Query) : Datatypes.bool :=
  match q with
  | term f v => existsb (value_eqb v) (field_values d f)
  | terms f vs =>
      existsb (fun v => existsb (value_eqb (VString v)) (field_values d f)) vs
  | range_lte f n => existsb (range_lte_value n) (field_values d f)
  | multi_match text fields fuzz => multi_match_hit rel text fields fuzz d
  | bool must should msm =>
      forallb (matches rel d) must
      && (msm <=? length (List.filter (matches rel d) should))%nat
  end.

Record SearchRequest := {
  query : Query;
  from : nat;
  size : nat;
  terminate_after : nat
}.

Record Hit := { _id : string; _source : Source }.

(** [hits.total] is a number or an object with a [value]. *)
Inductive HitsTotal : Type :=
| TotalNumber (n : nat)
| TotalObject (value : option nat).

Record SearchResponse := { hits_total : option HitsTotal; hits_hits : option (list Hit) }.

(** The backend: every call raises [fault] when it is set. *)
Record Backend := {
  fault : option Error;
  relevance : Relevance;
  documents : gmap string Document
}.

Definition with_documents (es : Backend) (docs : gmap string Document) : Backend :=
  {| fault := fault es; relevance := relevance es; documents := docs |}.

(** [max_result_window: 10000] of the index settings. *)
Definition max_result_window : nat := 10000.

(** [sort: [{ _score: 'desc' }]] *)
Definition score_desc (rel : Relevance) (q : Query) (x y : Document) : Datatypes.bool :=
  Qle_bool (_score rel q y) (_score rel q x).

Definition hit_of (d : Document) : Hit := {| _id := id d; _source := source_of d |}.

(** [terminate_after]: the shard stops collecting after that many
    matching documents; [0] sets no limit. *)
Definition collect (limit : nat) (matching : list Document) : list Document :=
  match limit with
  | O => matching
  | S _ => firstn limit matching
  end.

(** [elasticsearch.search({ index, query, from, size, sort, ... })]: the
    matching documents are collected, ranked by score and paged;
    [hits.total] counts the collected ones. *)
Definition search (es : Backend) (req : SearchRequest) : Result SearchResponse :=
  match fault es with
  | Some e => Err e
  | None =>
      if (max_result_window <? from req + size req)%nat
      then Err (ResponseError 400 "Result window is too large")
      else
        let matching :=
          List.filter (fun d => matches (relevance es) d (query req))
                      (map snd (map_to_list (documents es))) in
        let collected := collect (terminate_after req) matching in
        let ranked := sort_by (score_desc (relevance es) (query req)) collected in
        Ok {| hits_total := Some (TotalObject (Some (length collected)));
              hits_hits := Some (map hit_of (firstn (size req) (skipn (from req) ranked))) |}
  end.

(** [elasticsearch.index({ index, id, document })]: create or overwrite. *)
Definition index (es : Backend) (i : string) (doc : Document) : Result Backend :=
  match fault es with
  | Some e => Err e
  | None => Ok (with_documents es (<[i := doc]> (documents es)))
  end.

(** [elasticsearch.delete({ index, id })]: the client raises a
    [ResponseError] on the 404 answered for an id with no document. *)
Definition delete (es : Backend) (i : string) : Result Backend :=
  match fault es with
  | Some e => Err e
  | None =>
      match documents es !! i with
      | Some _ => Ok (with_documents es (base.delete i (documents es)))
      | None => Err (ResponseError 404 "not_found")
      end
  end.

(** [elasticsearch.bulk({ operations })] with one index action per
    document, applied in order. *)
Definition bulk (es : Backend) (operations : list (string * Document)) : Result Backend :=
  match fault es with
  | Some e => Err e
  | None =>
      Ok (with_documents es
            (fold_left (fun docs op => <[fst op := snd op]> docs) operations (documents es)))
  end.

End Elasticsearch.

(** ** SearchService ([src/search/search.service.ts]) *)

Module SearchService.

Import Elasticsearch.

(** The [filters] argument of [searchRecipes]. *)
Record Filters := {
  difficulty : option string;
  cuisine : option string;
  tags : option (list string);
  ingredients : option (list string);
  minRating : option Z;
  maxPrepTime : option Z;
  maxCookTime : option Z
}.

Definition no_filters : Filters :=
  {| difficulty := None; cuisine := None; tags := None; ingredients := None;
     minRating := None; maxPrepTime := None; maxCookTime := None |}.

(** [formatRecipe]: the store's recipe with its computed fields. *)
Record FormattedRecipe := {
  recipe : Prisma.Recipe;
  averageRating : option Q;
  ratingsCount : nat;
  commentsCount : nat
}.

Definition sum_ratings (rs : list Prisma.Rating) : Z :=
  fold_left (fun sum r => (sum + Prisma.rating r)%Z) rs 0%Z.

Definition formatRecipe (r : Prisma.Recipe) : FormattedRecipe :=
  let rs := Prisma.ratings (Prisma.row r) in
  {| recipe := r;
     averageRating :=
       if (0 <? length rs)%nat
       then Some (inject_Z (sum_ratings rs) / inject_Z (Z.of_nat (length rs)))%Q
       else None;
     ratingsCount := Prisma.count_ratings (Prisma._count r);
     commentsCount := Prisma.count_comments (Prisma._count r) |}.

(** An element of the returned [recipes] array: a hit's [_source] on the
    index path, a formatted store recipe on the fallback path. *)
Inductive Item : Type :=
| IndexItem (source : Source)
| StoreItem (formatted : FormattedRecipe).

Record SearchResult := { recipes : list Item; total : nat }.

(** The document [indexRecipe] derives from a recipe. *)
Definition recipeData (r : Prisma.RecipeRow) : Document :=
  {| id := Prisma.id r;
     title := Prisma.title r;
     description := Prisma.description r;
     Elasticsearch.ingredients := Js.join " " (map Prisma.name (Prisma.ingredients r));
     instructions := Js.join " " (map Prisma.step (Prisma.instructions r));
     Elasticsearch.tags := Prisma.tags r;
     Elasticsearch.difficulty := Prisma.difficulty r;
     Elasticsearch.cuisine := Prisma.cuisine r;
     prepTime := Prisma.prepTime r;
     cookTime := Prisma.cookTime r;
     servings := Prisma.servings r;
     authorId := Prisma.authorId r;
     isPublic := Prisma.isPublic r;
     createdAt := Prisma.createdAt r;
     updatedAt := Prisma.updatedAt r |}.

(** [indexRecipe]: the backend's error is logged and thrown again. *)
Definition indexRecipe (es : Backend) (r : Prisma.RecipeRow) : Result Backend :=
  match Elasticsearch.index es (Prisma.id r) (recipeData r) with
  | Ok es' => Ok es'
  | Err error => Err error
  end.

(** [deleteRecipe]: the backend's error is logged and thrown again. *)
Definition deleteRecipe (es : Backend) (i : string) : Result Backend :=
  match Elasticsearch.delete es i with
  | Ok es' => Ok es'
  | Err error => Err error
  end.

Definition push_string (o : option string) (clause : string -> Query) : list Query :=
  match o with
  | Some s => if Js.truthy_string s then [clause s] else []
  | None => []
  end.

Definition push_array (o : option (list string)) (clause : list string -> Query) : list Query :=
  match o with
  | Some (x :: xs) => [clause (x :: xs)]
  | _ => []
  end.

Definition push_int (o : option Z) (clause : Z -> Query) : list Query :=
  match o with
  | Some n => if (n =? 0)%Z then [] else [clause n]
  | None => []
  end.

(** [shouldQueries] of [searchRecipes]. *)
Definition shouldQueries (text : string) : list Query :=
  if Js.truthy_string text
  then [multi_match text [("title", 3%Q); ("description", 2%Q); ("ingredients", 1.5%Q)] "1"]
  else [].

(** [mustQueries] of [searchRecipes]; [minRating] is not read. *)
Definition mustQueries (filters : Filters) : list Query :=
  push_string (difficulty filters) (fun d => term "difficulty" (VString d))
  ++ push_string (cuisine filters) (fun c => term "cuisine" (VString c))
  ++ push_array (tags filters) (fun ts => terms "tags" ts)
  ++ push_array (ingredients filters) (fun xs =>
       bool [] (map (fun ingredient =>
                       term "ingredients.keyword" (VString (Js.toLowerCase ingredient))) xs) 1)
  ++ push_int (maxPrepTime filters) (fun n => range_lte "prepTime" n)
  ++ push_int (maxCookTime filters) (fun n => range_lte "cookTime" n)
  ++ [term "isPublic" (VBool true)].

(** [searchBody] of [searchRecipes]. *)
Definition searchBody (text : string) (filters : Filters) (skip take : nat) : SearchRequest :=
  {| query := bool (mustQueries filters) (shouldQueries text)
                   (if Js.truthy_string text then 1 else 0);
     from := skip;
     size := Js.math_min take 50;
     terminate_after := 10000 |}.

(** [response.hits?.hits?.map((hit) => hit._source) || []] *)
Definition response_recipes (response : SearchResponse) : list Item :=
  match hits_hits response with
  | Some hs => map (fun hit => IndexItem (_source hit)) hs
  | None => []
  end.

(** [typeof total === 'number' ? total : total?.value || 0] *)
Definition response_total (response : SearchResponse) : nat :=
  match hits_total response with
  | Some (TotalNumber n) => n
  | Some (TotalObject (Some n)) => n
  | _ => 0
  end.

(** The [where] object of [searchRecipesInDatabase]; [minRating] is not read. *)
Definition databaseWhere (text : string) (filters : Filters) : Prisma.Where :=
  {| Prisma.where_isPublic := Some true;
     Prisma.where_OR_contains := if Js.truthy_string text then Some text else None;
     Prisma.where_difficulty :=
       if Js.truthy_opt_string (difficulty filters) then difficulty filters else None;
     Prisma.where_cuisine_contains :=
       if Js.truthy_opt_string (cuisine filters) then cuisine filters else None;
     Prisma.where_tags_hasSome :=
       if Js.non_empty (tags filters) then tags filters else None;
     Prisma.where_ingredients_some_name_in :=
       if Js.non_empty (ingredients filters) then ingredients filters else None;
     Prisma.where_prepTime_lte :=
       if Js.truthy_opt_int (maxPrepTime filters) then maxPrepTime filters else None;
     Prisma.where_cookTime_lte :=
       if Js.truthy_opt_int (maxCookTime filters) then maxCookTime filters else None |}.

(** [Promise.all([findMany(...), count(...)])], then the formatted page. *)
Definition query_database (db : Prisma.Client) (clause : Prisma.Where) (skip take : nat)
  : Result SearchResult :=
  match Prisma.findMany db clause skip take, Prisma.count db clause with
  | Ok rows, Ok n =>
      Ok {| recipes := map (fun r => StoreItem (formatRecipe r)) rows; total := n |}
  | Err error, _ => Err error
  | _, Err error => Err error
  end.

Definition searchRecipesInDatabase (db : Prisma.Client) (text : string) (filters : Filters)
    (skip take : nat) : Result SearchResult :=
  query_database db (databaseWhere text filters) skip take.

Definition searchRecipes (es : Backend) (db : Prisma.Client) (text : string)
    (filters : Filters) (skip take : nat) : Result SearchResult :=
  match Elasticsearch.search es (searchBody text filters skip take) with
  | Ok response =>
      Ok {| recipes := response_recipes response; total := response_total response |}
  | Err _ => searchRecipesInDatabase db text filters skip take
  end.

(** [searchBody] of [searchByIngredients]. *)
Definition ingredientsBody (ingredients : list string) (skip take : nat) : SearchRequest :=
  {| query :=
       bool [term "isPublic" (VBool true);
             bool [] (map (fun ingredient =>
                             multi_match ingredient
                               [("ingredients", 2%Q); ("title", 1.5%Q)] "AUTO")
                          ingredients) 1]
            [] 0;
     from := skip;
     size := Js.math_min take 50;
     terminate_after := 10000 |}.

(** The [where] object of the fallback of [searchByIngredients]. *)
Definition ingredientsWhere (ingredients : list string) : Prisma.Where :=
  {| Prisma.where_isPublic := Some true;
     Prisma.where_OR_contains := None;
     Prisma.where_difficulty := None;
     Prisma.where_cuisine_contains := None;
     Prisma.where_tags_hasSome := None;
     Prisma.where_ingredients_some_name_in := Some ingredients;
     Prisma.where_prepTime_lte := None;
     Prisma.where_cookTime_lte := None |}.

Definition searchByIngredients (es : Backend) (db : Prisma.Client)
    (ingredients : list string) (skip take : nat) : Result SearchResult :=
  match Elasticsearch.search es (ingredientsBody ingredients skip take) with
  | Ok response =>
      Ok {| recipes := response_recipes response; total := response_total response |}
  | Err _ => query_database db (ingredientsWhere ingredients) skip take
  end.

Definition item_isPublic (i : Item) : Datatypes.bool :=
  match i with
  | IndexItem s => source_isPublic s
  | StoreItem f => Prisma.isPublic (Prisma.row (recipe f))
  end.

Definition item_id (i : Item) : string :=
  match i with
  | IndexItem s => source_id s
  | StoreItem f => Prisma.id (Prisma.row (recipe f))
  end.

(** The structured filters as the store applies them: each one only when
    the caller supplied a truthy value. *)
Definition store_filters (filters : Filters) (r : Prisma.RecipeRow) : Datatypes.bool :=
  match difficulty filters with
  | Some (String c s) => String.eqb (Prisma.difficulty r) (String c s)
  | _ => true
  end
  && match cuisine filters with
     | Some (String c s) => Prisma.contains_insensitive_opt (Prisma.cuisine r) (String c s)
     | _ => true
     end
  && match tags filters with
     | Some (t :: ts) => Prisma.hasSome (Prisma.tags r) (t :: ts)
     | _ => true
     end
  && match ingredients filters with
     | Some (x :: xs) =>
         existsb (fun i => Prisma.in_insensitive (Prisma.name i) (x :: xs)) (Prisma.ingredients r)
     | _ => true
     end
  && match maxPrepTime filters with
     | Some n => if (n =? 0)%Z then true else Prisma.lte_opt (Prisma.prepTime r) n
     | None => true
     end
  && match maxCookTime filters with
     | Some n => if (n =? 0)%Z then true else Prisma.lte_opt (Prisma.cookTime r) n
     | None => true
     end.

(** Case-insensitive substring match of the text on title or description. *)
Definition text_matches (text : string) (r : Prisma.RecipeRow) : Datatypes.bool :=
  Js.includes (Js.toLowerCase (Prisma.title r)) (Js.toLowerCase text)
  || match Prisma.description r with
     | Some d => Js.includes (Js.toLowerCase d) (Js.toLowerCase text)
     | None => false
     end.

(** Two filter objects that differ at most in [minRating]. *)
Definition agree_except_minRating (f g : Filters) : Prop :=
  difficulty f = difficulty g
  /\ cuisine f = cuisine g
  /\ tags f = tags g
  /\ ingredients f = ingredients g
  /\ maxPrepTime f = maxPrepTime g
  /\ maxCookTime f = maxCookTime g.

(** [error.message] *)
Definition error_message (e : Error) : string :=
  match e with
  | ConnectionError m => m
  | ResponseError _ m => m
  | HttpException m _ => m
  | NotFoundException m => m
  | ForbiddenException m => m
  | PrismaClientError m => m
  end.

(** The [catch] of [indexAllRecipes]: an access-denied error of the
    store is logged and dropped, any other error is thrown again.
    [error_code] reads the [code] property of the thrown error. *)
Definition access_denied (error_code : Error -> option string) (e : Error) : Datatypes.bool :=
  match error_code e with
  | Some c => String.eqb c "P1010"
  | None => false
  end
  || Js.includes (error_message e) "denied access".

(** [indexAllRecipes]: probe the store, read every recipe, and send one
    bulk request when there is something to index. *)
Definition indexAllRecipes (error_code : Error -> option string)
    (es : Backend) (db : Prisma.Client) : Result Backend :=
  let handle error :=
    if access_denied error_code error then Ok es else Err error in
  match Prisma.fault db with
  | Some error => handle error
  | None =>
      let operations := map (fun r => (Prisma.id r, recipeData r)) (Prisma.recipes db) in
      if (0 <? length operations)%nat
      then match Elasticsearch.bulk es operations with
           | Ok es' => Ok es'
           | Err error => handle error
           end
      else Ok es
  end.

(** [case 'ingredients'] of [getSuggestions] *)
Definition suggest_ingredients (db : Prisma.Client) (text : string) : list string :=
  match Prisma.ingredient_findMany_names db text 10 with
  | Ok ingredientResults => ingredientResults
  | Err _ => []
  end.

(** [case 'cuisine'] of [getSuggestions]: the non-null cuisines. *)
Definition suggest_cuisine (db : Prisma.Client) (text : string) : list string :=
  match Prisma.recipe_findMany_cuisines db text 10 with
  | Ok cuisineResults => omap (fun c => c) cuisineResults
  | Err _ => []
  end.

(** [case 'tags'] of [getSuggestions] *)
Definition suggest_tags (db : Prisma.Client) (text : string) : list string :=
  match Prisma.recipe_findMany_tags db [text] 20 with
  | Ok tagResults =>
      let allTags := concat tagResults in
      let uniqueTags := Js.unique String.eqb allTags in
      firstn 10
        (List.filter
           (fun tag => Js.includes (Js.toLowerCase tag) (Js.toLowerCase text))
           uniqueTags)
  | Err _ => []
  end.

(** [getSuggestions]: every error is caught and answered by []. *)
Definition getSuggestions (db : Prisma.Client) (text field : string) : list string :=
  if negb (Js.truthy_string text) || (String.length text <? 2)%nat then []
  else
    match field with
    | "ingredients" => suggest_ingredients db text
    | "cuisine" => suggest_cuisine db text
    | "tags" => suggest_tags db text
    | _ => []
    end.

(** What each branch of [getSuggestions] guarantees for its answer. *)
Definition suggestions_ok (text : string) (l : list string) : Prop :=
  length l <= 10
  /\ List.NoDup l
  /\ forall s, In s l -> Js.includes (Js.toLowerCase s) (Js.toLowerCase text) = true.

End SearchService.

(** ** RecipesService ([src/recipes/recipes.service.ts])

    The mutations act on both backends; [World] is the pair of them. *)

Module RecipesService.

Record World := { es : Elasticsearch.Backend; db : Prisma.Client }.

(** [create]: the row is written to the store, then indexed; a failure
    of the indexing call is caught and logged. *)
Definition create (w : World) (r : Prisma.RecipeRow) : Result Prisma.RecipeRow * World :=
  match Prisma.create (db w) r with
  | Err error => (Err error, w)
  | Ok db' =>
      match SearchService.indexRecipe (es w) r with
      | Ok es' => (Ok r, {| es := es'; db := db' |})
      | Err _ => (Ok r, {| es := es w; db := db' |})
      end
  end.

(** [remove] *)
Definition remove (w : World) (id userId : string) : Result bool * World :=
  match Prisma.findUnique (db w) id with
  | Err error => (Err error, w)
  | Ok None => (Err (NotFoundException "Recipe not found"), w)
  | Ok (Some r) =>
      if negb (String.eqb (Prisma.authorId r) userId)
      then (Err (ForbiddenException "You can only delete your own recipes"), w)
      else
        match Prisma.delete (db w) id with
        | Err error => (Err error, w)
        | Ok db' => (Ok true, {| es := es w; db := db' |})
        end
  end.

(** [findAll] *)
Definition findAll (db : Prisma.Client) (skip take : nat) (search : option string)
    (difficulty cuisine : option string) (tags : option (list string))
  : Result (list SearchService.FormattedRecipe) :=
  let clause :=
    {| Prisma.where_isPublic := Some true;
       Prisma.where_OR_contains := if Js.truthy_opt_string search then search else None;
       Prisma.where_difficulty := if Js.truthy_opt_string difficulty then difficulty else None;
       Prisma.where_cuisine_contains := if Js.truthy_opt_string cuisine then cuisine else None;
       Prisma.where_tags_hasSome := if Js.non_empty tags then tags else None;
       Prisma.where_ingredients_some_name_in := None;
       Prisma.where_prepTime_lte := None;
       Prisma.where_cookTime_lte := None |} in
  match Prisma.findMany db clause skip take with
  | Ok rows => Ok (map SearchService.formatRecipe rows)
  | Err error => Err error
  end.

End RecipesService.

(** ** AiService: the trending ranker ([src/ai/ai.service.ts]) *)

Module AiService.

Local Open Scope Q_scope.

Record TrendingRecipe := {
  title : string;
  description : string;
  trend : string;
  difficulty : string;
  prepTime : Z;
  cookTime : Z
}.

(** An element of [trendingRecipes], before [trendScore] is dropped. *)
Record ScoredRecipe := {
  scored_title : string;
  scored_description : option string;
  scored_trend : string;
  scored_difficulty : string;
  scored_prepTime : option Z;
  scored_cookTime : option Z;
  trendScore : Q
}.

(** [1000 * 60 * 60 * 24] *)
Definition ms_per_day : Z := 1000 * 60 * 60 * 24.

Definition daysSinceCreated (now : Z) (r : Prisma.Recipe) : Q :=
  inject_Z (now - Prisma.createdAt (Prisma.row r)) / inject_Z ms_per_day.

Definition avgRating (r : Prisma.Recipe) : Q :=
  let rs := Prisma.ratings (Prisma.row r) in
  if (0 <? length rs)%nat
  then inject_Z (SearchService.sum_ratings rs) / inject_Z (Z.of_nat (length rs))
  else 0.

Definition engagementScore (r : Prisma.Recipe) : nat :=
  (Prisma.count_ratings (Prisma._count r) + Prisma.count_comments (Prisma._count r))%nat.

Definition recencyScore (days : Q) : Q := Qmax 0 (30 - days) / 30.

Definition ratingScore (avg : Q) : Q := avg / 5.

Definition includes_any (tags : list string) (a b : string) : bool :=
  Js.array_includes tags a || Js.array_includes tags b.

Definition determineTrendCategory (tags : list string) (avg : Q) (engagement : nat)
    (days : Q) : string :=
  if includes_any tags "air-fryer" "air-frying" then "Air Frying"
  else if includes_any tags "sourdough" "fermentation" then "Sourdough Baking"
  else if includes_any tags "plant-based" "vegan" then "Plant-Based Cooking"
  else if includes_any tags "keto" "low-carb" then "Keto Diet"
  else if includes_any tags "instant-pot" "pressure-cooker" then "Instant Pot Cooking"
  else if includes_any tags "meal-prep" "batch-cooking" then "Meal Prep"
  else if includes_any tags "one-pot" "sheet-pan" then "One-Pot Meals"
  else if includes_any tags "gluten-free" "dairy-free" then "Allergen-Free Cooking"
  else if includes_any tags "fermentation" "pickling" then "Fermentation"
  else if includes_any tags "smoking" "bbq" then "Smoking & BBQ"
  else if Qle_bool 4.5 avg then "Highly Rated"
  else if (10 <=? engagement)%nat then "Popular"
  else if Qle_bool days 7 then "New & Trending"
  else "Recently Added".

(** [calculateTrendScore]; [now] is the clock reading of [new Date()]. *)
Definition calculateTrendScore (now : Z) (r : Prisma.Recipe) : string * Q :=
  let days := daysSinceCreated now r in
  let avg := avgRating r in
  let engagement := engagementScore r in
  let score :=
    (recencyScore days * 0.4) + (ratingScore avg * 0.3)
    + (inject_Z (Z.of_nat engagement) * 0.3) in
  (determineTrendCategory (Prisma.tags (Prisma.row r)) avg engagement days, score).

Definition score_recipe (now : Z) (r : Prisma.Recipe) : ScoredRecipe :=
  let trendData := calculateTrendScore now r in
  {| scored_title := Prisma.title (Prisma.row r);
     scored_description := Prisma.description (Prisma.row r);
     scored_trend := fst trendData;
     scored_difficulty := Js.toUpperCase (Prisma.difficulty (Prisma.row r));
     scored_prepTime := Prisma.prepTime (Prisma.row r);
     scored_cookTime := Prisma.cookTime (Prisma.row r);
     trendScore := snd trendData |}.

(** The final [map]: [trendScore] dropped, nulls replaced. *)
Definition present (s : ScoredRecipe) : TrendingRecipe :=
  {| title := scored_title s;
     description := Js.string_or (scored_description s) EmptyString;
     trend := scored_trend s;
     difficulty := scored_difficulty s;
     prepTime := Js.int_or (scored_prepTime s) 0;
     cookTime := Js.int_or (scored_cookTime s) 0 |}.

(** [(a, b) => b.trendScore - a.trendScore] *)
Definition by_trendScore (a b : ScoredRecipe) : bool :=
  Qle_bool (trendScore b) (trendScore a).

(** [validateInput(limit, 'limit')]: [0] is falsy. *)
Definition validateInput (limit : Z) : option Error :=
  if (limit =? 0)%Z
  then Some (HttpException "limit is required and cannot be empty" 400)
  else None.

(** The [findMany] call of [getTrendingRecipes]: no [where]. *)
Definition fetchCandidates (db : Prisma.Client) (limit : Z) : Result (list Prisma.Recipe) :=
  Prisma.findMany db Prisma.where_all 0 (Z.to_nat (Z.min (limit * 3) 100)).

(** [getTrendingRecipes]; [clock i] is the reading of the [i]-th
    [new Date()], one per candidate. *)
Definition getTrendingRecipes (clock : nat -> Z) (db : Prisma.Client) (limit : Z)
  : Result (list TrendingRecipe) :=
  match validateInput limit with
  | Some error => Err error
  | None =>
      if ((limit <=? 0) || (50 <? limit))%Z
      then Err (HttpException "Limit must be between 1 and 50" 400)
      else
        match fetchCandidates db limit with
        | Err _ => Ok []
        | Ok [] => Ok []
        | Ok recipes =>
            let trendingRecipes := imap (fun i r => score_recipe (clock i) r) recipes in
            Ok (map present
                  (firstn (Z.to_nat limit) (sort_by by_trendScore trendingRecipes)))
        end
  end.

(** The mean of the rating values, [0] when there are none. *)
Definition mean_rating (rs : list Prisma.Rating) : Q :=
  match rs with
  | [] => 0
  | _ :: _ =>
      inject_Z (fold_right Z.add 0%Z (map Prisma.rating rs)) / inject_Z (Z.of_nat (length rs))
  end.

(** The documented tag rules, in priority order: the tags any of which
    triggers the rule, and its label. *)
Definition documented_tag_rules : list (list string * string) :=
  [ (["air-fryer"], "Air Frying");
    (["sourdough"; "fermentation"], "Sourdough Baking");
    (["plant-based"; "vegan"], "Plant-Based Cooking");
    (["keto"; "low-carb"], "Keto Diet");
    (["instant-pot"; "pressure-cooker"], "Instant Pot Cooking");
    (["meal-prep"; "batch-cooking"], "Meal Prep");
    (["one-pot"; "sheet-pan"], "One-Pot Meals");
    (["gluten-free"; "dairy-free"], "Allergen-Free Cooking");
    (["fermentation"; "pickling"], "Fermentation");
    (["smoking"; "bbq"], "Smoking & BBQ") ].

(** The label of the first rule, in list order, that a tag triggers. *)
Fixpoint first_matching_rule (tags : list string) (rules : list (list string * string))
  : option string :=
  match rules with
  | [] => None
  | (triggers, label) :: rest =>
      if existsb (Js.array_includes tags) triggers then Some label
      else first_matching_rule tags rest
  end.

(** The rules on the signals, tried when no tag rule applies. *)
Definition signal_label (avg : Q) (engagement : nat) (days : Q) : string :=
  if Qle_bool 4.5 avg then "Highly Rated"
  else if (10 <=? engagement)%nat then "Popular"
  else if Qle_bool days 7 then "New & Trending"
  else "Recently Added".

(** The documented choice of the label: the first matching tag rule,
    else the first matching rule on the signals. *)
Definition documented_label (tags : list string) (avg : Q) (engagement : nat) (days : Q)
  : string :=
  match first_matching_rule tags documented_tag_rules with
  | Some label => label
  | None => signal_label avg engagement days
  end.

(** The code's first rule also accepts the tag [air-frying]: it reads
    that tag as [air-fryer]. *)
Definition air_fryer_alias (tag : string) : string :=
  if String.eqb tag "air-frying" then "air-fryer" else tag.

(** [MAX_RETRIES] and [RETRY_DELAY] *)
Definition MAX_RETRIES : nat := 3.
Definition RETRY_DELAY : Z := 1000.

(** The loop of [executeOpenAICall] from [attempt] on, with [remaining]
    iterations left.  [operation k] is the outcome of the call made in
    attempt [k]; the answer comes with the delays slept, in order. *)
Fixpoint retry_from {T : Type} (operation : nat -> Result T) (fallbackValue : T)
    (attempt remaining : nat) : T * list Z :=
  match remaining with
  | O => (fallbackValue, [])
  | S rest =>
      match operation attempt with
      | Ok result => (result, [])
      | Err _ =>
          let later := retry_from operation fallbackValue (S attempt) rest in
          if (attempt <? MAX_RETRIES)%nat
          then (fst later, (RETRY_DELAY * 2 ^ Z.of_nat (attempt - 1))%Z :: snd later)
          else later
      end
  end.

Definition executeOpenAICall {T : Type} (operation : nat -> Result T) (fallbackValue : T)
  : T * list Z :=
  retry_from operation fallbackValue 1 MAX_RETRIES.

(** [getCachedOrExecute] on the service's [cache]; [operation] is the
    outcome the operation would have if it ran. *)
Definition getCachedOrExecute {T : Type} (cache : gmap string T) (cacheKey : string)
    (operation : Result T) : Result T * gmap string T :=
  match cache !! cacheKey with
  | Some cached => (Ok cached, cache)
  | None =>
      match operation with
      | Ok result => (Ok result, <[cacheKey := result]> cache)
      | Err error => (Err error, cache)
      end
  end.

(** The timer set with an entry: [this.cache.delete(cacheKey)]. *)
Definition cache_expire {T : Type} (cache : gmap string T) (cacheKey : string)
  : gmap string T :=
  base.delete cacheKey cache.

(** The shape shared by [improveRecipe], [suggestSubstitutions],
    [suggestPairings] and [generateRecipeFromIngredients]:
    [getCachedOrExecute(key, () => executeOpenAICall(call, name, fallback))]. *)
Definition cachedOpenAICall {T : Type} (cache : gmap string T) (cacheKey : string)
    (operation : nat -> Result T) (fallbackValue : T) : Result T * gmap string T :=
  getCachedOrExecute cache cacheKey (Ok (fst (executeOpenAICall operation fallbackValue))).

Record Nutrition := { calories : Q; protein : Q; carbs : Q; fat : Q }.

Definition nutrition (c p cb f : Q) : Nutrition :=
  {| calories := c; protein := p; carbs := cb; fat := f |}.

(** [nutritionDB], per 100 g, in the order of its keys. *)
Definition nutritionDB : list (string * Nutrition) :=
  [ ("chicken", nutrition 165 25 0 6);
    ("beef", nutrition 250 26 0 15);
    ("pork", nutrition 242 22 0 16);
    ("fish", nutrition 150 22 0 6);
    ("salmon", nutrition 208 25 0 12);
    ("tuna", nutrition 132 28 0 1);
    ("rice", nutrition 130 3 28 0.5);
    ("pasta", nutrition 131 5 25 1);
    ("bread", nutrition 265 9 49 3);
    ("potato", nutrition 77 2 17 0.1);
    ("sweet potato", nutrition 86 2 20 0.1);
    ("cheese", nutrition 113 7 1 9);
    ("milk", nutrition 42 3 5 1);
    ("yogurt", nutrition 59 10 4 0.4);
    ("oil", nutrition 884 0 0 100);
    ("butter", nutrition 717 1 0 81);
    ("olive oil", nutrition 884 0 0 100);
    ("vegetable", nutrition 25 1 5 0.2);
    ("tomato", nutrition 18 1 4 0.2);
    ("onion", nutrition 40 1 9 0.1);
    ("pepper", nutrition 20 1 5 0.2);
    ("carrot", nutrition 41 1 10 0.2);
    ("apple", nutrition 52 0.3 14 0.2);
    ("banana", nutrition 89 1 23 0.3);
    ("egg", nutrition 155 13 1 11);
    ("almond", nutrition 579 21 22 50);
    ("walnut", nutrition 654 15 14 65);
    ("nut", nutrition 607 20 21 54) ].

(** [Object.keys(nutritionDB).find(key => name.includes(key))] *)
Definition matching_key (name : string) : option string :=
  List.find (fun key => Js.includes name key) (map fst nutritionDB).

(** [nutritionDB[key]] *)
Definition nutritionDB_get (key : string) : option Nutrition :=
  option_map snd (List.find (fun entry => String.eqb (fst entry) key) nutritionDB).

Definition getIngredientNutrition (ingredientName : string) (amount : Q) : Nutrition :=
  let name := Js.toLowerCase ingredientName in
  let scale := amount / 100 in
  let per100 :=
    match matching_key name with
    | Some key =>
        match nutritionDB_get key with
        | Some n => n
        | None => nutrition 50 2 8 1
        end
    | None => nutrition 50 2 8 1
    end in
  {| calories := calories per100 * scale;
     protein := protein per100 * scale;
     carbs := carbs per100 * scale;
     fat := fat per100 * scale |}.

(** [a < b] on numbers. *)
Definition Qlt_bool (a b : Q) : bool := negb (Qle_bool b a).

(** [calculateHealthScore] *)
Definition calculateHealthScore (n : Nutrition) : Z :=
  let score :=
    if Qlt_bool 0 (calories n)
    then
      let proteinRatio := protein n / (calories n / 4) in
      let carbRatio := carbs n / (calories n / 4) in
      let fatRatio := fat n / (calories n / 9) in
      (5 + (if Qlt_bool 0.15 proteinRatio then 1 else 0)
         + (if Qlt_bool carbRatio 0.6 then 1 else 0)
         + (if Qlt_bool fatRatio 0.35 then 1 else 0)
         + (if Qlt_bool (calories n) 500 then 1 else 0)
         + (if Qlt_bool 200 (calories n) then 1 else 0))%Z
    else 5%Z in
  Z.max 1 (Z.min 10 score).

(** An attempt that threw. *)
Definition failed {T : Type} (r : Result T) : Prop :=
  match r with Ok _ => False | Err _ => True end.

End AiService.

(** ** Concrete stores and indexes used in the examples *)

Module Scenario.

(** An engine for the examples: a [multi_match] hits a document when the
    lower-cased text occurs in one of the listed text fields. *)
Definition text_field (d : Elasticsearch.Document) (field : string) : string :=
  match field with
  | "title" => Elasticsearch.title d
  | "description" => Js.string_or (Elasticsearch.description d) EmptyString
  | "ingredients" => Elasticsearch.ingredients d
  | _ => EmptyString
  end.

Definition substring_engine : Elasticsearch.Relevance :=
  {| Elasticsearch.multi_match_hit := fun text fields _ d =>
       existsb (fun f => Prisma.contains_insensitive (text_field d (fst f)) text) fields;
     Elasticsearch._score := fun _ _ => 1%Q |}.

Definition recipe_row (i name : string) (public : bool) (created : Z) : Prisma.RecipeRow :=
  {| Prisma.id := i; Prisma.title := name; Prisma.description := None;
     Prisma.prepTime := None; Prisma.cookTime := None; Prisma.servings := None;
     Prisma.difficulty := "EASY"; Prisma.cuisine := None; Prisma.tags := [];
     Prisma.isPublic := public; Prisma.authorId := "u1";
     Prisma.createdAt := created; Prisma.updatedAt := created;
     Prisma.ingredients :=
       [ {| Prisma.name := "pasta"; Prisma.order := 0 |};
         {| Prisma.name := "eggs"; Prisma.order := 1 |};
         {| Prisma.name := "pancetta"; Prisma.order := 2 |} ];
     Prisma.instructions := []; Prisma.ratings := []; Prisma.comments := [] |}.

Definition carbonara : Prisma.RecipeRow := recipe_row "r1" "Spaghetti Carbonara" true 0.

Definition family_secret : Prisma.RecipeRow := recipe_row "r2" "Family Secret Stew" false 0.

(** [n] public recipes. *)
Definition public_recipes (n : nat) : list Prisma.RecipeRow :=
  map (fun k => recipe_row ("r" ++ pretty k) ("Recipe " ++ pretty k) true (Z.of_nat k)) (seq 0 n).

Definition store (rows : list Prisma.RecipeRow) : Prisma.Client :=
  {| Prisma.fault := None; Prisma.recipes := rows |}.

Definition empty_index : Elasticsearch.Backend :=
  {| Elasticsearch.fault := None;
     Elasticsearch.relevance := substring_engine;
     Elasticsearch.documents := ∅ |}.

Definition unreachable_index : Elasticsearch.Backend :=
  {| Elasticsearch.fault := Some (ConnectionError "connect ECONNREFUSED");
     Elasticsearch.relevance := substring_engine;
     Elasticsearch.documents := ∅ |}.

(** An index holding the documents of a public and of a private recipe. *)
Definition mixed_index : Elasticsearch.Backend :=
  Elasticsearch.with_documents empty_index
    (<["r2" := SearchService.recipeData family_secret]>
       (<["r1" := SearchService.recipeData carbonara]> ∅)).

(** A clock that reads the epoch at every [new Date()]. *)
Definition frozen_clock : nat -> Z := fun _ => 0%Z.

(** The world after [create] of the carbonara recipe in an empty system. *)
Definition after_create : RecipesService.World :=
  snd (RecipesService.create
         {| RecipesService.es := empty_index; RecipesService.db := store [] |} carbonara).

(** ... and after its author deleted it again. *)
Definition after_remove : RecipesService.World :=
  snd (RecipesService.remove after_create "r1" "u1").

(** A recipe with a single ingredient. *)
Definition boiled_eggs : Prisma.RecipeRow :=
  {| Prisma.id := "r3"; Prisma.title := "Boiled Eggs"; Prisma.description := None;
     Prisma.prepTime := Some 2%Z; Prisma.cookTime := Some 8%Z; Prisma.servings := None;
     Prisma.difficulty := "EASY"; Prisma.cuisine := None; Prisma.tags := ["breakfast"];
     Prisma.isPublic := true; Prisma.authorId := "u1";
     Prisma.createdAt := 5; Prisma.updatedAt := 5;
     Prisma.ingredients := [ {| Prisma.name := "eggs"; Prisma.order := 0 |} ];
     Prisma.instructions := [];
     Prisma.ratings := [ {| Prisma.rating := 4; Prisma.userId := "u2" |};
                         {| Prisma.rating := 5; Prisma.userId := "u3" |} ];
     Prisma.comments := [] |}.

(** An index holding the documents of the carbonara and the boiled eggs. *)
Definition breakfast_index : Elasticsearch.Backend :=
  Elasticsearch.with_documents empty_index
    (<["r3" := SearchService.recipeData boiled_eggs]>
       (<["r1" := SearchService.recipeData carbonara]> ∅)).

(** An old recipe with two ratings and a comment. *)
Definition old_favourite : Prisma.RecipeRow :=
  {| Prisma.id := "r4"; Prisma.title := "Grandmother's Stew"; Prisma.description := None;
     Prisma.prepTime := None; Prisma.cookTime := None; Prisma.servings := None;
     Prisma.difficulty := "MEDIUM"; Prisma.cuisine := None; Prisma.tags := [];
     Prisma.isPublic := true; Prisma.authorId := "u1";
     Prisma.createdAt := 0; Prisma.updatedAt := 0;
     Prisma.ingredients := []; Prisma.instructions := [];
     Prisma.ratings := [ {| Prisma.rating := 4; Prisma.userId := "u2" |};
                         {| Prisma.rating := 5; Prisma.userId := "u3" |} ];
     Prisma.comments := [ {| Prisma.content := "A classic"; Prisma.commentUserId := "u2" |} ] |}.

(** A recipe tagged [air-frying] and [vegan]. *)
Definition air_fried_tofu : Prisma.RecipeRow :=
  {| Prisma.id := "r5"; Prisma.title := "Air Fried Tofu"; Prisma.description := None;
     Prisma.prepTime := None; Prisma.cookTime := None; Prisma.servings := None;
     Prisma.difficulty := "EASY"; Prisma.cuisine := None;
     Prisma.tags := ["air-frying"; "vegan"];
     Prisma.isPublic := true; Prisma.authorId := "u1";
     Prisma.createdAt := 0; Prisma.updatedAt := 0;
     Prisma.ingredients := []; Prisma.instructions := [];
     Prisma.ratings := []; Prisma.comments := [] |}.

(** A recipe tagged [vegan] and [keto] whose ratings are all 5. *)
Definition vegan_keto_bowl : Prisma.RecipeRow :=
  {| Prisma.id := "r6"; Prisma.title := "Vegan Keto Bowl"; Prisma.description := None;
     Prisma.prepTime := None; Prisma.cookTime := None; Prisma.servings := None;
     Prisma.difficulty := "EASY"; Prisma.cuisine := None;
     Prisma.tags := ["vegan"; "keto"];
     Prisma.isPublic := true; Prisma.authorId := "u1";
     Prisma.createdAt := 0; Prisma.updatedAt := 0;
     Prisma.ingredients := []; Prisma.instructions := [];
     Prisma.ratings := [ {| Prisma.rating := 5; Prisma.userId := "u2" |};
                         {| Prisma.rating := 5; Prisma.userId := "u3" |} ];
     Prisma.comments := [] |}.

End Scenario.

(** * Properties *)

(** ** Lists and sorting *)

Lemma In_firstn {A : Type} (n : nat) (l : list A) (x : A) :
  In x (firstn n l) -> In x l.
Proof.
  revert l; induction n as [|n IH]; intros [|y l]; simpl; try tauto.
  intros [->|H]; [now left | right; now apply IH].
Qed.

Lemma In_skipn {A : Type} (n : nat) (l : list A) (x : A) :
  In x (skipn n l) -> In x l.
Proof.
  revert l; induction n as [|n IH]; intros [|y l]; simpl; try tauto.
  intros H; right; now apply IH.
Qed.

Lemma filter_all {A : Type} (f : A -> bool) (l : list A) :
  (forall x, f x = true) -> List.filter f l = l.
Proof.
  intros Hf; induction l as [|x l IH]; simpl; [reflexivity|].
  now rewrite Hf, IH.
Qed.

Lemma insert_by_perm {A : Type} (before : A -> A -> bool) (x : A) (l : list A) :
  Permutation (insert_by before x l) (x :: l).
Proof.
  induction l as [|y l IH]; simpl; [reflexivity|].
  destruct (before x y); [reflexivity|].
  rewrite IH. apply perm_swap.
Qed.

Lemma sort_by_perm {A : Type} (before : A -> A -> bool) (l : list A) :
  Permutation (sort_by before l) l.
Proof.
  induction l as [|x l IH]; simpl; [reflexivity|].
  rewrite insert_by_perm. now constructor.
Qed.

Lemma sort_by_In {A : Type} (before : A -> A -> bool) (l : list A) (x : A) :
  In x (sort_by before l) <-> In x l.
Proof.
  split; apply Permutation_in; [|symmetry]; apply sort_by_perm.
Qed.

Lemma sort_by_length {A : Type} (before : A -> A -> bool) (l : list A) :
  length (sort_by before l) = length l.
Proof. apply Permutation_length, sort_by_perm. Qed.

(** A page of a sorted, filtered list only holds elements of the list. *)
Lemma In_page {A : Type} (before : A -> A -> bool) (skip take : nat) (l : list A) (x : A) :
  In x (firstn take (skipn skip (sort_by before l))) -> In x l.
Proof.
  intros H. apply In_firstn, In_skipn in H. now apply sort_by_In in H.
Qed.

Lemma insert_by_sorted {A : Type} (before : A -> A -> bool) (R : A -> A -> Prop)
    (x : A) (l : list A) :
  (forall a b, before a b = true -> R a b) ->
  (forall a b, before a b = false -> R b a) ->
  (forall a b c, R a b -> R b c -> R a c) ->
  StronglySorted R l -> StronglySorted R (insert_by before x l).
Proof.
  intros Hyes Hno Htrans. induction 1 as [|y l Hl IH Hy]; simpl.
  - repeat constructor.
  - destruct (before x y) eqn:E.
    + constructor; [now constructor|].
      constructor; [now apply Hyes|].
      eapply Forall_impl; [exact Hy|]. intros z Hz. eapply Htrans; eauto.
    + constructor; [exact IH|].
      eapply Permutation_Forall; [symmetry; apply insert_by_perm|].
      constructor; [now apply Hno | exact Hy].
Qed.

Lemma sort_by_sorted {A : Type} (before : A -> A -> bool) (R : A -> A -> Prop)
    (l : list A) :
  (forall a b, before a b = true -> R a b) ->
  (forall a b, before a b = false -> R b a) ->
  (forall a b c, R a b -> R b c -> R a c) ->
  StronglySorted R (sort_by before l).
Proof.
  intros Hyes Hno Htrans. induction l as [|x l IH]; simpl.
  - constructor.
  - now apply insert_by_sorted.
Qed.

Lemma sorted_split {A : Type} (R : A -> A -> Prop) (front back : list A) :
  StronglySorted R (front ++ back) ->
  forall x y, In x front -> In y back -> R x y.
Proof.
  induction front as [|a front IH]; simpl; intros Hs x y Hx Hy; [tauto|].
  apply StronglySorted_inv in Hs as [Hs Ha].
  destruct Hx as [->|Hx].
  - rewrite List.Forall_forall in Ha. apply Ha, in_or_app. now right.
  - now apply IH.
Qed.

(** ** The query engine *)

Import SearchService.

(** The last clause pushed on [mustQueries] is the public-only term. *)
Lemma mustQueries_isPublic (filters : Filters) :
  In (Elasticsearch.term "isPublic" (Elasticsearch.VBool true)) (mustQueries filters).
Proof.
  unfold mustQueries. repeat (apply in_or_app; right). now left.
Qed.

Lemma term_isPublic_matches rel (d : Elasticsearch.Document) :
  Elasticsearch.matches rel d (Elasticsearch.term "isPublic" (Elasticsearch.VBool true)) = true ->
  Elasticsearch.isPublic d = true.
Proof.
  cbn. destruct (Elasticsearch.isPublic d); [reflexivity | discriminate].
Qed.

Lemma In_collect limit (l : list Elasticsearch.Document) d :
  In d (Elasticsearch.collect limit l) -> In d l.
Proof. destruct limit; [tauto | apply In_firstn]. Qed.

(** Every hit of a successful backend search is a stored document that
    matches the request's query. *)
Lemma search_hits_match es req resp (h : Elasticsearch.Hit) hs :
  Elasticsearch.search es req = Ok resp ->
  Elasticsearch.hits_hits resp = Some hs ->
  In h hs ->
  exists d, h = Elasticsearch.hit_of d
            /\ Elasticsearch.matches (Elasticsearch.relevance es) d (Elasticsearch.query req) = true.
Proof.
  unfold Elasticsearch.search. destruct (Elasticsearch.fault es); [discriminate|].
  destruct (_ <? _)%nat; [discriminate|].
  intros [= <-]; cbn. intros [= <-] Hin.
  apply in_map_iff in Hin as (d & <- & Hd).
  exists d; split; [reflexivity|].
  apply In_page, In_collect, filter_In in Hd. tauto.
Qed.

(** The page the backend answers is never longer than the requested size. *)
Lemma search_hits_length es req resp hs :
  Elasticsearch.search es req = Ok resp ->
  Elasticsearch.hits_hits resp = Some hs ->
  length hs <= Elasticsearch.size req.
Proof.
  unfold Elasticsearch.search. destruct (Elasticsearch.fault es); [discriminate|].
  destruct (_ <? _)%nat; [discriminate|].
  intros [= <-]; cbn. intros [= <-].
  rewrite length_map. apply firstn_le_length.
Qed.

Lemma query_database_public db clause skip take res i :
  Prisma.where_isPublic clause = Some true ->
  query_database db clause skip take = Ok res ->
  In i (recipes res) -> item_isPublic i = true.
Proof.
  unfold query_database, Prisma.findMany, Prisma.count.
  destruct (Prisma.fault db); [discriminate|].
  intros Hpub [= <-]; cbn. intros Hin.
  apply in_map_iff in Hin as (r & <- & Hr).
  apply in_map_iff in Hr as (row & <- & Hrow).
  apply In_page, filter_In in Hrow as [_ Hm].
  unfold Prisma.where_matches in Hm. rewrite Hpub in Hm. cbn in Hm.
  repeat (apply andb_prop in Hm as [Hm _]).
  cbn. now destruct (Prisma.isPublic row).
Qed.

Lemma index_items_public es req resp i :
  (exists must should msm,
      Elasticsearch.query req = Elasticsearch.bool must should msm
      /\ In (Elasticsearch.term "isPublic" (Elasticsearch.VBool true)) must) ->
  Elasticsearch.search es req = Ok resp ->
  In i (response_recipes resp) -> item_isPublic i = true.
Proof.
  intros (must & should & msm & Hq & Hmust) Hs Hin.
  unfold response_recipes in Hin.
  destruct (Elasticsearch.hits_hits resp) as [hs|] eqn:Hhs; [|contradiction].
  apply in_map_iff in Hin as (h & <- & Hh).
  destruct (search_hits_match _ _ _ _ _ Hs Hhs Hh) as (d & -> & Hm).
  rewrite Hq in Hm. cbn [Elasticsearch.matches] in Hm.
  apply andb_prop in Hm as [Hm _].
  rewrite forallb_forall in Hm.
  cbn. eapply term_isPublic_matches, Hm, Hmust.
Qed.

Lemma eqb_true_r (b : Datatypes.bool) : Bool.eqb b true = b.
Proof. now destruct b. Qed.

Lemma databaseWhere_matches text filters r :
  Prisma.where_matches (databaseWhere text filters) r
  = Prisma.isPublic r
    && (if Js.truthy_string text then text_matches text r else true)
    && store_filters filters r.
Proof.
  unfold Prisma.where_matches, databaseWhere, store_filters, text_matches; cbn.
  rewrite eqb_true_r, <- !andb_assoc.
  f_equal. f_equal; [now destruct text|].
  destruct filters as [d c ts xs m p k]; cbn.
  f_equal; [destruct d as [[|]|]; reflexivity|].
  f_equal; [destruct c as [[|]|]; reflexivity|].
  f_equal; [destruct ts as [[|]|]; reflexivity|].
  f_equal; [destruct xs as [[|]|]; reflexivity|].
  f_equal; [destruct p as [n|]; cbn; [destruct (n =? 0)%Z|]; reflexivity|].
  destruct k as [n|]; cbn; [destruct (n =? 0)%Z|]; reflexivity.
Qed.




(** C2. Every item returned by [searchRecipes] and by
    [searchByIngredients] has [isPublic = true], on the index path and on
    the store path, whatever the text, filters, offset and page size. *)
Theorem search_items_are_public es db skip take :
  (forall text filters res i,
      searchRecipes es db text filters skip take = Ok res ->
      In i (recipes res) -> item_isPublic i = true)
  /\ (forall ingredients res i,
      searchByIngredients es db ingredients skip take = Ok res ->
      In i (recipes res) -> item_isPublic i = true).
Proof.
  split.
  - intros text filters res i. unfold searchRecipes.
    destruct (Elasticsearch.search es _) as [resp|e] eqn:Hs.
    + intros [= <-]; cbn. eapply index_items_public; [|exact Hs].
      do 3 eexists; split; [reflexivity|]. apply mustQueries_isPublic.
    + apply query_database_public. reflexivity.
  - intros ingredients res i. unfold searchByIngredients.
    destruct (Elasticsearch.search es _) as [resp|e] eqn:Hs.
    + intros [= <-]; cbn. eapply index_items_public; [|exact Hs].
      do 3 eexists; split; [reflexivity|]. now left.
    + apply query_database_public. reflexivity.
Qed.

Lemma search_items_are_public_witness :
  searchRecipes Scenario.mixed_index
                (Scenario.store [Scenario.carbonara; Scenario.family_secret])
                EmptyString no_filters 0 10
  = Ok {| recipes := [IndexItem (Elasticsearch.source_of (recipeData Scenario.carbonara))];
          total := 1 |}
  /\ item_isPublic (IndexItem (Elasticsearch.source_of (recipeData Scenario.carbonara))) = true.
Proof.
  assert (Hrun :
    searchRecipes Scenario.mixed_index
                  (Scenario.store [Scenario.carbonara; Scenario.family_secret])
                  EmptyString no_filters 0 10
    = Ok {| recipes := [IndexItem (Elasticsearch.source_of (recipeData Scenario.carbonara))];
            total := 1 |}) by (vm_compute; reflexivity).
  split; [exact Hrun|].
  apply (proj1 (search_items_are_public Scenario.mixed_index
                  (Scenario.store [Scenario.carbonara; Scenario.family_secret]) 0 10)
               EmptyString no_filters _ _ Hrun).
  now left.
Defined.

(** The index path serves at most 50 items: [size: Math.min(take, 50)]. *)
Lemma index_page_at_most_50 es db text filters skip take resp res :
  Elasticsearch.search es (searchBody text filters skip take) = Ok resp ->
  searchRecipes es db text filters skip take = Ok res ->
  length (recipes res) <= 50.
Proof.
  intros Hs. unfold searchRecipes. rewrite Hs. intros [= <-]; cbn.
  unfold response_recipes.
  destruct (Elasticsearch.hits_hits resp) as [hs|] eqn:Hhs; cbn; [|lia].
  rewrite length_map.
  pose proof (search_hits_length _ _ _ _ Hs Hhs) as Hlen.
  cbn in Hlen. unfold Js.math_min in Hlen. lia.
Qed.

(** C3. With the index backend unreachable and 51 public recipes in the
    store, [searchRecipes] asked for [take = 1000] answers all 51 recipes:
    the store path passes [take] on unclamped, where the index path
    requests [Math.min(take, 50)]. *)
Theorem fallback_page_is_not_clamped :
  exists res,
    searchRecipes Scenario.unreachable_index (Scenario.store (Scenario.public_recipes 51))
                  EmptyString no_filters 0 1000 = Ok res
    /\ length (recipes res) = 51
    /\ total res = 51.
Proof.
  eexists. split; [vm_compute; reflexivity|]. split; reflexivity.
Qed.

(** C10. Two filter objects that agree on every field but [minRating]
    give the same request to the index, the same [where] to the store and
    the same outcome of [searchRecipes], on either path. *)
Theorem minRating_is_ignored es db text skip take (f g : Filters) :
  agree_except_minRating f g ->
  searchRecipes es db text f skip take = searchRecipes es db text g skip take
  /\ searchRecipesInDatabase db text f skip take = searchRecipesInDatabase db text g skip take
  /\ searchBody text f skip take = searchBody text g skip take
  /\ databaseWhere text f = databaseWhere text g.
Proof.
  destruct f as [d c ts xs m p k], g as [d' c' ts' xs' m' p' k'].
  unfold agree_except_minRating; cbn.
  intros (<- & <- & <- & <- & <- & <-).
  repeat split; reflexivity.
Qed.

Lemma minRating_is_ignored_witness :
  searchRecipes Scenario.mixed_index (Scenario.store [Scenario.carbonara]) "carbonara"
    {| difficulty := Some "EASY"; cuisine := None; tags := None; ingredients := None;
       minRating := Some 5%Z; maxPrepTime := None; maxCookTime := None |} 0 10
  = searchRecipes Scenario.mixed_index (Scenario.store [Scenario.carbonara]) "carbonara"
    {| difficulty := Some "EASY"; cuisine := None; tags := None; ingredients := None;
       minRating := None; maxPrepTime := None; maxCookTime := None |} 0 10.
Proof.
  apply (minRating_is_ignored Scenario.mixed_index (Scenario.store [Scenario.carbonara])
           "carbonara" 0 10).
  unfold agree_except_minRating; cbn. repeat split; reflexivity.
Defined.

(** ** Index maintenance *)

(** [remove] never touches the index. *)
Lemma remove_keeps_index w id userId :
  RecipesService.es (snd (RecipesService.remove w id userId)) = RecipesService.es w.
Proof.
  unfold RecipesService.remove.
  destruct (Prisma.findUnique _ _) as [[r|]|e]; cbn; try reflexivity.
  destruct (negb _); cbn; [reflexivity|].
  destruct (Prisma.delete _ _); reflexivity.
Qed.

(** C5. The carbonara recipe is created (and indexed), then deleted by
    its author.  The deletion succeeds and the store path no longer finds
    it, but [remove] leaves its document in the index, so the index path
    still serves it. *)
Theorem deleted_recipe_still_served_by_index :
  fst (RecipesService.remove Scenario.after_create "r1" "u1") = Ok true
  /\ Prisma.recipes (RecipesService.db Scenario.after_remove) = []
  /\ searchRecipesInDatabase (RecipesService.db Scenario.after_remove)
                             "carbonara" no_filters 0 10
     = Ok {| recipes := []; total := 0 |}
  /\ searchRecipes (RecipesService.es Scenario.after_remove)
                   (RecipesService.db Scenario.after_remove)
                   "carbonara" no_filters 0 10
     = Ok {| recipes := [IndexItem (Elasticsearch.source_of (recipeData Scenario.carbonara))];
             total := 1 |}
  /\ item_id (IndexItem (Elasticsearch.source_of (recipeData Scenario.carbonara))) = "r1".
Proof.
  repeat split; vm_compute; reflexivity.
Qed.

(** C8, as stated, fails: for an id with no document the backend answers
    404, the client raises, and [deleteRecipe] throws the error again; so
    it does with the error of an unreachable backend. *)
Lemma deleteRecipe_missing_document_raises :
  deleteRecipe Scenario.empty_index "r404" = Err (ResponseError 404 "not_found")
  /\ deleteRecipe Scenario.unreachable_index "r404"
     = Err (ConnectionError "connect ECONNREFUSED").
Proof. split; vm_compute; reflexivity. Qed.

(** C8, amended. [deleteRecipe] succeeds exactly when the backend is
    reachable and holds a document under the id; it then removes that
    document and no other.  Otherwise it raises: the backend's own error
    when it is unreachable, the 404 of the missing document when it is
    not. *)
Theorem deleteRecipe_outcome es (i : string) :
  match deleteRecipe es i with
  | Ok es' =>
      Elasticsearch.fault es = None
      /\ is_Some (Elasticsearch.documents es !! i)
      /\ Elasticsearch.documents es' !! i = None
      /\ (forall j, j <> i ->
            Elasticsearch.documents es' !! j = Elasticsearch.documents es !! j)
  | Err e =>
      Elasticsearch.fault es = Some e
      \/ (Elasticsearch.fault es = None
          /\ Elasticsearch.documents es !! i = None
          /\ e = ResponseError 404 "not_found")
  end.
Proof.
  unfold deleteRecipe, Elasticsearch.delete.
  destruct (Elasticsearch.fault es) as [e|] eqn:Hf; [now left|].
  destruct (Elasticsearch.documents es !! i) as [d|] eqn:Hd.
  - cbn. repeat split.
    + now exists d.
    + apply lookup_delete_eq.
    + intros j Hj. apply lookup_delete_ne. congruence.
  - right. repeat split.
Qed.

(** ** The trend ranker *)

Import AiService.

Local Open Scope Q_scope.

Lemma fold_left_sum (rs : list Prisma.Rating) (a : Z) :
  fold_left (fun sum r => (sum + Prisma.rating r)%Z) rs a
  = (a + fold_right Z.add 0%Z (map Prisma.rating rs))%Z.
Proof.
  revert a; induction rs as [|r rs IH]; intros a; cbn; [lia|].
  rewrite IH. lia.
Qed.

Lemma avgRating_mean (c : Prisma.Recipe) :
  avgRating c = mean_rating (Prisma.ratings (Prisma.row c)).
Proof.
  unfold avgRating, mean_rating, SearchService.sum_ratings.
  destruct (Prisma.ratings (Prisma.row c)) as [|r rs]; [reflexivity|].
  rewrite fold_left_sum. reflexivity.
Qed.

(** What [findMany] answers carries the counts of the relations it includes. *)
Lemma fetchCandidates_counts db limit cands c :
  fetchCandidates db limit = Ok cands -> In c cands ->
  c = Prisma.with_count (Prisma.row c).
Proof.
  unfold fetchCandidates, Prisma.findMany.
  destruct (Prisma.fault db); [discriminate|].
  intros [= <-] Hin. apply in_map_iff in Hin as (r & <- & _). reflexivity.
Qed.

Lemma recencyScore_nonneg (days : Q) : 0 <= recencyScore days.
Proof.
  unfold recencyScore. apply Qle_shift_div_l; [reflexivity|].
  rewrite Qmult_0_l. apply Q.le_max_l.
Qed.

(** C4. For every candidate that [getTrendingRecipes] fetched, the score
    computed for it is [0.4 * recencyScore + 0.3 * ratingScore
    + 0.3 * engagement], with [recencyScore = max(0, 30 - days) / 30]
    (never negative), [ratingScore] the mean rating (0 without ratings)
    over 5, and [engagement] the number of ratings plus the number of
    comments. *)
Theorem trend_score_formula db limit cands c (now : Z) :
  fetchCandidates db limit = Ok cands ->
  In c cands ->
  let r := Prisma.row c in
  let days := inject_Z (now - Prisma.createdAt r) / inject_Z 86400000 in
  let recency := Qmax 0 (30 - days) / 30 in
  let rating := mean_rating (Prisma.ratings r) / 5 in
  let engagement :=
    inject_Z (Z.of_nat (length (Prisma.ratings r) + length (Prisma.comments r))) in
  trendScore (score_recipe now c) == 0.4 * recency + 0.3 * rating + 0.3 * engagement
  /\ 0 <= recency.
Proof.
  intros Hfetch Hin r days recency rating engagement.
  split; [|apply recencyScore_nonneg].
  pose proof (fetchCandidates_counts _ _ _ _ Hfetch Hin) as Hc.
  unfold score_recipe, calculateTrendScore; cbn [trendScore snd].
  rewrite avgRating_mean.
  subst recency rating engagement days r.
  destruct c as [rw cnt]; cbn [Prisma.row] in *.
  unfold Prisma.with_count in Hc. injection Hc as ->.
  unfold engagementScore, recencyScore, ratingScore, daysSinceCreated, ms_per_day.
  cbn [Prisma._count Prisma.count_ratings Prisma.count_comments Prisma.row].
  change (1000 * 60 * 60 * 24)%Z with 86400000%Z.
  unfold Qdiv. ring.
Qed.

Lemma trend_score_formula_witness :
  trendScore (score_recipe 86400000 (Prisma.with_count Scenario.carbonara))
  == 0.4 * (Qmax 0 (30 - inject_Z (86400000 - 0) / inject_Z 86400000) / 30)
     + 0.3 * (mean_rating [] / 5)
     + 0.3 * inject_Z (Z.of_nat (0 + 0)).
Proof.
  apply (trend_score_formula (Scenario.store [Scenario.carbonara]) 1
           [Prisma.with_count Scenario.carbonara]
           (Prisma.with_count Scenario.carbonara) 86400000).
  - vm_compute. reflexivity.
  - now left.
Defined.

Lemma daysSinceCreated_antitone now_newer now_older (newer older : Prisma.Recipe) :
  (Prisma.createdAt (Prisma.row older) <= Prisma.createdAt (Prisma.row newer))%Z ->
  (now_newer <= now_older)%Z ->
  daysSinceCreated now_newer newer <= daysSinceCreated now_older older.
Proof.
  intros Hcreated Hnow. unfold daysSinceCreated, Qdiv.
  apply Qmult_le_compat_r; [|discriminate].
  rewrite <- Zle_Qle. lia.
Qed.

Lemma recencyScore_antitone (d1 d2 : Q) :
  d1 <= d2 -> recencyScore d2 <= recencyScore d1.
Proof.
  intros Hd. unfold recencyScore, Qdiv.
  apply Qmult_le_compat_r; [|discriminate].
  apply Q.max_le_compat_l. lra.
Qed.

(** C9. Of two candidates with the same ratings, comments and counts,
    the one created later (and scored at a clock reading that is not
    later) has a [recencyScore] and a [trendScore] at least as high. *)
Theorem newer_recipe_scores_no_lower now_newer now_older (newer older : Prisma.Recipe) :
  Prisma.ratings (Prisma.row newer) = Prisma.ratings (Prisma.row older) ->
  Prisma.comments (Prisma.row newer) = Prisma.comments (Prisma.row older) ->
  Prisma._count newer = Prisma._count older ->
  (Prisma.createdAt (Prisma.row older) <= Prisma.createdAt (Prisma.row newer))%Z ->
  (now_newer <= now_older)%Z ->
  recencyScore (daysSinceCreated now_older older)
  <= recencyScore (daysSinceCreated now_newer newer)
  /\ trendScore (score_recipe now_older older)
     <= trendScore (score_recipe now_newer newer).
Proof.
  intros Hratings Hcomments Hcount Hcreated Hnow.
  pose proof (recencyScore_antitone _ _
                (daysSinceCreated_antitone _ _ _ _ Hcreated Hnow)) as Hrecency.
  split; [exact Hrecency|].
  unfold score_recipe, calculateTrendScore; cbn [trendScore snd].
  unfold avgRating, engagementScore. rewrite Hratings, Hcount.
  apply Qplus_le_compat; [|apply Qle_refl].
  apply Qplus_le_compat; [|apply Qle_refl].
  apply Qmult_le_compat_r; [exact Hrecency | discriminate].
Qed.

Lemma newer_recipe_scores_no_lower_witness :
  recencyScore (daysSinceCreated 864000000
                  (Prisma.with_count (Scenario.recipe_row "old" "Stew" true 0)))
  <= recencyScore (daysSinceCreated 864000000
                     (Prisma.with_count (Scenario.recipe_row "new" "Stew" true 432000000)))
  /\ trendScore (score_recipe 864000000
                   (Prisma.with_count (Scenario.recipe_row "old" "Stew" true 0)))
     <= trendScore (score_recipe 864000000
                      (Prisma.with_count (Scenario.recipe_row "new" "Stew" true 432000000))).
Proof.
  apply (newer_recipe_scores_no_lower 864000000 864000000
           (Prisma.with_count (Scenario.recipe_row "new" "Stew" true 432000000))
           (Prisma.with_count (Scenario.recipe_row "old" "Stew" true 0)));
    try reflexivity; cbn; lia.
Defined.

(** C6. The candidates of [getTrendingRecipes] are not restricted to
    public recipes: its [findMany] has no [where].  A store holding one
    private recipe has it as the candidate and serves it as trending. *)
Lemma trending_serves_private_recipe :
  Prisma.isPublic Scenario.family_secret = false
  /\ fetchCandidates (Scenario.store [Scenario.family_secret]) 1
     = Ok [Prisma.with_count Scenario.family_secret]
  /\ getTrendingRecipes Scenario.frozen_clock (Scenario.store [Scenario.family_secret]) 1
     = Ok [ {| title := "Family Secret Stew"; description := EmptyString;
               trend := "New & Trending"; difficulty := "EASY";
               prepTime := 0; cookTime := 0 |} ].
Proof. repeat split; vm_compute; reflexivity. Qed.

Lemma createdAt_desc_sorted (rows : list Prisma.RecipeRow) :
  StronglySorted (fun x y => (Prisma.createdAt y <= Prisma.createdAt x)%Z)
                 (sort_by Prisma.createdAt_desc rows).
Proof.
  apply sort_by_sorted; unfold Prisma.createdAt_desc.
  - intros a b H. now apply Z.leb_le.
  - intros a b H. apply Z.leb_gt in H. lia.
  - intros a b c. lia.
Qed.

Lemma where_all_matches (r : Prisma.RecipeRow) :
  Prisma.where_matches Prisma.where_all r = true.
Proof. reflexivity. Qed.

(** For [limit] in [1, 50] and a reachable store, the candidates are
    the [min(limit * 3, 100)] most recently created rows of the recipe
    table; the answer holds at most [limit] recipes, each the
    presentation of a scored candidate. *)
Lemma trending_candidates_most_recent (clock : nat -> Z) db (limit : Z) :
  (1 <= limit <= 50)%Z ->
  Prisma.fault db = None ->
  exists cands rest,
    fetchCandidates db limit = Ok (map Prisma.with_count cands)
    /\ Permutation (cands ++ rest) (Prisma.recipes db)
    /\ length cands
       = Nat.min (Z.to_nat (Z.min (limit * 3) 100)) (length (Prisma.recipes db))
    /\ (forall c r, In c cands -> In r rest ->
          (Prisma.createdAt r <= Prisma.createdAt c)%Z)
    /\ exists out,
         getTrendingRecipes clock db limit = Ok out
         /\ (length out <= Z.to_nat limit)%nat
         /\ forall t, In t out ->
              exists i c, In c cands
                          /\ t = present (score_recipe (clock i) (Prisma.with_count c)).
Proof.
  intros Hlimit Hup.
  set (n := Z.to_nat (Z.min (limit * 3) 100)).
  set (sorted := sort_by Prisma.createdAt_desc (Prisma.recipes db)).
  assert (Hfetch : fetchCandidates db limit = Ok (map Prisma.with_count (firstn n sorted))).
  { unfold fetchCandidates, Prisma.findMany. rewrite Hup.
    rewrite (filter_all _ _ where_all_matches). reflexivity. }
  exists (firstn n sorted), (skipn n sorted).
  split; [exact Hfetch|].
  split; [rewrite firstn_skipn; apply sort_by_perm|].
  split; [rewrite length_firstn; unfold sorted; now rewrite sort_by_length|].
  split.
  { intros c r Hc Hr.
    apply (sorted_split (fun x y => (Prisma.createdAt y <= Prisma.createdAt x)%Z)
             (firstn n sorted) (skipn n sorted)); auto.
    rewrite firstn_skipn. apply createdAt_desc_sorted. }
  unfold getTrendingRecipes, validateInput.
  replace (limit =? 0)%Z with false by (symmetry; apply Z.eqb_neq; lia).
  replace ((limit <=? 0) || (50 <? limit))%Z with false
    by (symmetry; apply orb_false_intro; [apply Z.leb_gt | apply Z.ltb_ge]; lia).
  rewrite Hfetch.
  destruct (map Prisma.with_count (firstn n sorted)) as [|c0 cs] eqn:Hmap.
  - exists []. repeat split; [cbn; lia | intros t []].
  - eexists. split; [reflexivity|]. split.
    + rewrite length_map. apply firstn_le_length.
    + intros t Ht.
      apply in_map_iff in Ht as (s & <- & Hs).
      apply In_firstn, sort_by_In in Hs.
      apply list_elem_of_In, elem_of_lookup_imap_1 in Hs as (i & y & -> & Hy).
      apply list_elem_of_lookup_2, list_elem_of_In in Hy.
      rewrite <- Hmap in Hy. apply in_map_iff in Hy as (c & <- & Hc).
      exists i, c. split; [exact Hc | reflexivity].
Qed.

(** Every recipe of the answer is the presentation of the candidate at
    some position of the fetched list, scored at that position's clock
    reading. *)
Lemma trending_item_origin (clock : nat -> Z) db (limit : Z) out (t : TrendingRecipe) :
  getTrendingRecipes clock db limit = Ok out ->
  In t out ->
  exists i c cands,
    fetchCandidates db limit = Ok cands
    /\ cands !! i = Some c
    /\ t = present (score_recipe (clock i) c).
Proof.
  unfold getTrendingRecipes.
  destruct (validateInput limit); [discriminate|].
  destruct (_ || _)%bool; [discriminate|].
  destruct (fetchCandidates db limit) as [[|c0 cs]|e].
  - intros [= <-] [].
  - intros Hout Ht.
    assert (Hout' : out = map present
                            (firstn (Z.to_nat limit)
                               (sort_by by_trendScore
                                  (imap (fun i r => score_recipe (clock i) r) (c0 :: cs)))))
      by (injection Hout as <-; reflexivity).
    subst out. apply in_map_iff in Ht as (sc & <- & Hsc).
    apply In_firstn, sort_by_In in Hsc.
    apply list_elem_of_In, elem_of_lookup_imap_1 in Hsc as (i & c & -> & Hc).
    exists i, c, (c0 :: cs). auto.
  - intros [= <-] [].
Qed.

Lemma existsb_orb {A : Type} (f g : A -> bool) (l : list A) :
  existsb (fun x => f x || g x) l = existsb f l || existsb g l.
Proof.
  induction l as [|x l IH]; cbn; [reflexivity|].
  rewrite IH. destruct (f x), (g x), (existsb f l), (existsb g l); reflexivity.
Qed.

Lemma alias_air_fryer (tags : list string) :
  Js.array_includes (map air_fryer_alias tags) "air-fryer"
  = includes_any tags "air-fryer" "air-frying".
Proof.
  unfold includes_any, Js.array_includes. rewrite <- existsb_orb.
  induction tags as [|t tags IH]; [reflexivity|].
  cbn [map existsb]. rewrite IH. f_equal.
  unfold air_fryer_alias. destruct (String.eqb t "air-frying") eqn:Ht.
  - apply String.eqb_eq in Ht. subst t. reflexivity.
  - rewrite (String.eqb_sym "air-frying" t), Ht. now rewrite orb_false_r.
Qed.

Lemma alias_other_tag (tags : list string) (x : string) :
  x <> "air-fryer" -> x <> "air-frying" ->
  Js.array_includes (map air_fryer_alias tags) x = Js.array_includes tags x.
Proof.
  intros Hfryer Hfrying. unfold Js.array_includes.
  induction tags as [|t tags IH]; [reflexivity|].
  cbn [map existsb]. rewrite IH. f_equal.
  unfold air_fryer_alias. destruct (String.eqb t "air-frying") eqn:Ht; [|reflexivity].
  apply String.eqb_eq in Ht. subst t.
  apply String.eqb_neq in Hfryer, Hfrying. now rewrite Hfryer, Hfrying.
Qed.

(** The label of [determineTrendCategory] is the documented one once
    [air-frying] is read as [air-fryer]. *)
Lemma determineTrendCategory_documented (tags : list string) avg engagement days :
  determineTrendCategory tags avg engagement days
  = documented_label (map air_fryer_alias tags) avg engagement days.
Proof.
  unfold documented_label, documented_tag_rules.
  cbn [first_matching_rule existsb]. rewrite alias_air_fryer.
  repeat match goal with
         | |- context [Js.array_includes (map air_fryer_alias tags) ?x] =>
             rewrite (alias_other_tag tags x) by discriminate
         end.
  rewrite !orb_false_r.
  unfold determineTrendCategory, includes_any.
  repeat match goal with
         | |- context [if ?c then _ else _] => destruct c; try reflexivity
         end.
Qed.

(** C7, as stated, fails: a recipe tagged [air-frying] and [vegan] is
    labelled "Air Frying", where the documented order (whose first rule
    names the tag [air-fryer] only) gives "Plant-Based Cooking". *)
Lemma air_frying_tag_is_not_documented :
  getTrendingRecipes Scenario.frozen_clock (Scenario.store [Scenario.air_fried_tofu]) 1
  = Ok [ {| title := "Air Fried Tofu"; description := EmptyString;
            trend := "Air Frying"; difficulty := "EASY";
            prepTime := 0; cookTime := 0 |} ]
  /\ documented_label (Prisma.tags Scenario.air_fried_tofu)
       (avgRating (Prisma.with_count Scenario.air_fried_tofu))
       (engagementScore (Prisma.with_count Scenario.air_fried_tofu))
       (daysSinceCreated (Scenario.frozen_clock 0) (Prisma.with_count Scenario.air_fried_tofu))
     = "Plant-Based Cooking".
Proof. split; vm_compute; reflexivity. Qed.

(** C7, amended. The label attached to a recipe by [calculateTrendScore],
    and so the label of every recipe that [getTrendingRecipes] answers,
    is chosen by the first matching rule of the documented priority
    order, with the tag [air-frying] read as [air-fryer]: the tag rules
    come first, then the rules on rating, engagement and age.  A recipe
    tagged [vegan] and [keto] with an average rating of 5 is labelled
    "Plant-Based Cooking", although the rating rule alone would give
    "Highly Rated". *)
Theorem trend_label_documented_order :
  (forall (now : Z) (r : Prisma.Recipe),
      scored_trend (score_recipe now r)
      = documented_label (map air_fryer_alias (Prisma.tags (Prisma.row r)))
          (avgRating r) (engagementScore r) (daysSinceCreated now r))
  /\ (forall (clock : nat -> Z) db (limit : Z) out (t : TrendingRecipe),
        getTrendingRecipes clock db limit = Ok out ->
        In t out ->
        exists i c cands,
          fetchCandidates db limit = Ok cands
          /\ cands !! i = Some c
          /\ title t = Prisma.title (Prisma.row c)
          /\ trend t
             = documented_label (map air_fryer_alias (Prisma.tags (Prisma.row c)))
                 (avgRating c) (engagementScore c) (daysSinceCreated (clock i) c))
  /\ (forall (now : Z) (r : Prisma.Recipe),
        Prisma.tags (Prisma.row r) = ["vegan"; "keto"] ->
        avgRating r == 5 ->
        scored_trend (score_recipe now r) = "Plant-Based Cooking"
        /\ signal_label (avgRating r) (engagementScore r) (daysSinceCreated now r)
           = "Highly Rated").
Proof.
  assert (Hlabel : forall (now : Z) (r : Prisma.Recipe),
             scored_trend (score_recipe now r)
             = documented_label (map air_fryer_alias (Prisma.tags (Prisma.row r)))
                 (avgRating r) (engagementScore r) (daysSinceCreated now r)).
  { intros now r. unfold score_recipe, calculateTrendScore; cbn [scored_trend fst].
    apply determineTrendCategory_documented. }
  split; [exact Hlabel|]. split.
  - intros clock db limit out t Hout Ht.
    destruct (trending_item_origin _ _ _ _ _ Hout Ht) as (i & c & cands & Hf & Hc & ->).
    exists i, c, cands. repeat split; auto.
    cbn [present trend]. apply Hlabel.
  - intros now r Htags Havg. split.
    + rewrite Hlabel, Htags. reflexivity.
    + unfold signal_label.
      replace (Qle_bool 4.5 (avgRating r)) with true; [reflexivity|].
      symmetry. apply Qle_bool_iff. rewrite Havg. discriminate.
Qed.

Lemma trend_label_documented_order_witness :
  scored_trend (score_recipe 0 (Prisma.with_count Scenario.vegan_keto_bowl))
  = "Plant-Based Cooking"
  /\ signal_label (avgRating (Prisma.with_count Scenario.vegan_keto_bowl))
       (engagementScore (Prisma.with_count Scenario.vegan_keto_bowl))
       (daysSinceCreated 0 (Prisma.with_count Scenario.vegan_keto_bowl))
     = "Highly Rated".
Proof.
  apply (trend_label_documented_order).
  - reflexivity.
  - vm_compute. reflexivity.
Defined.

(** * Further properties *)

Local Close Scope Q_scope.

(** ** Keeping the index *)

(** X1. A successful [indexRecipe] stores the derived document under the
    recipe's id, leaves every other document alone, and indexing the same
    recipe again changes nothing: one document per id. *)
Theorem indexRecipe_upserts es (r : Prisma.RecipeRow) es' :
  indexRecipe es r = Ok es' ->
  Elasticsearch.documents es' !! Prisma.id r = Some (recipeData r)
  /\ (forall j, j <> Prisma.id r ->
        Elasticsearch.documents es' !! j = Elasticsearch.documents es !! j)
  /\ indexRecipe es' r = Ok es'.
Proof.
  unfold indexRecipe, Elasticsearch.index.
  destruct (Elasticsearch.fault es) eqn:Hf; [discriminate|].
  intros [= <-]; cbn. rewrite Hf.
  split; [apply lookup_insert_eq|].
  split; [intros j Hj; apply lookup_insert_ne; congruence|].
  unfold Elasticsearch.with_documents; cbn. now rewrite insert_insert_eq.
Qed.

Lemma indexRecipe_upserts_witness :
  exists es',
    indexRecipe Scenario.empty_index Scenario.carbonara = Ok es'
    /\ Elasticsearch.documents es' !! "r1" = Some (recipeData Scenario.carbonara).
Proof.
  eexists. split; [reflexivity|].
  apply (indexRecipe_upserts Scenario.empty_index Scenario.carbonara). reflexivity.
Defined.

(** X2. Indexing a recipe that had no document and then deleting it by id
    succeeds and gives back the documents the index held before. *)
Theorem index_then_delete_restores es (r : Prisma.RecipeRow) es1 :
  Elasticsearch.documents es !! Prisma.id r = None ->
  indexRecipe es r = Ok es1 ->
  exists es2,
    deleteRecipe es1 (Prisma.id r) = Ok es2
    /\ Elasticsearch.documents es2 = Elasticsearch.documents es.
Proof.
  unfold indexRecipe, deleteRecipe, Elasticsearch.index, Elasticsearch.delete.
  intros Hnone. destruct (Elasticsearch.fault es) eqn:Hf; [discriminate|].
  intros [= <-]; cbn. rewrite Hf, lookup_insert_eq.
  eexists; split; [reflexivity|]. cbn. now apply delete_insert_id.
Qed.

Lemma index_then_delete_restores_witness :
  exists es2,
    deleteRecipe (RecipesService.es Scenario.after_create) "r1" = Ok es2
    /\ Elasticsearch.documents es2 = Elasticsearch.documents Scenario.empty_index.
Proof.
  apply (index_then_delete_restores Scenario.empty_index Scenario.carbonara
           (RecipesService.es Scenario.after_create)); reflexivity.
Defined.

(** X3. [create] answers the recipe and appends it to the store whenever
    the store accepts it, whether or not the indexing call fails: with a
    reachable index the document is stored, with a failing one the index
    is left as it was.  A store error is passed on and nothing changes. *)
Theorem create_indexes_best_effort (w : RecipesService.World) (r : Prisma.RecipeRow) :
  (Prisma.fault (RecipesService.db w) = None ->
     fst (RecipesService.create w r) = Ok r
     /\ Prisma.recipes (RecipesService.db (snd (RecipesService.create w r)))
        = (Prisma.recipes (RecipesService.db w) ++ [r])%list
     /\ match Elasticsearch.fault (RecipesService.es w) with
        | None =>
            Elasticsearch.documents (RecipesService.es (snd (RecipesService.create w r)))
              !! Prisma.id r = Some (recipeData r)
        | Some _ => RecipesService.es (snd (RecipesService.create w r)) = RecipesService.es w
        end)
  /\ (forall e, Prisma.fault (RecipesService.db w) = Some e ->
        RecipesService.create w r = (Err e, w)).
Proof.
  unfold RecipesService.create, Prisma.create, indexRecipe, Elasticsearch.index.
  split.
  - intros ->. destruct (Elasticsearch.fault (RecipesService.es w)); cbn.
    + repeat split.
    + repeat split. apply lookup_insert_eq.
  - intros e ->. reflexivity.
Qed.

Lemma create_indexes_best_effort_witness :
  fst (RecipesService.create
         {| RecipesService.es := Scenario.unreachable_index;
            RecipesService.db := Scenario.store [] |} Scenario.carbonara)
  = Ok Scenario.carbonara.
Proof.
  apply (create_indexes_best_effort
           {| RecipesService.es := Scenario.unreachable_index;
              RecipesService.db := Scenario.store [] |} Scenario.carbonara).
  reflexivity.
Defined.

(** X4. [remove] deletes only for the author: it succeeds exactly when the
    store holds a recipe under the id whose author is the caller, and
    then drops the rows of that id and keeps all others.  An unknown id
    raises NotFound, another user's recipe raises Forbidden, and in every
    failing case nothing changes. *)
Theorem remove_only_by_author (w : RecipesService.World) (i user : string) :
  Prisma.fault (RecipesService.db w) = None ->
  match List.find (fun r => String.eqb (Prisma.id r) i) (Prisma.recipes (RecipesService.db w)) with
  | None =>
      RecipesService.remove w i user = (Err (NotFoundException "Recipe not found"), w)
  | Some r =>
      if String.eqb (Prisma.authorId r) user
      then fst (RecipesService.remove w i user) = Ok true
           /\ Prisma.recipes (RecipesService.db (snd (RecipesService.remove w i user)))
              = List.filter (fun x => negb (String.eqb (Prisma.id x) i))
                            (Prisma.recipes (RecipesService.db w))
           /\ (forall x, In x (Prisma.recipes (RecipesService.db (snd (RecipesService.remove w i user))))
                         -> Prisma.id x <> i)
      else RecipesService.remove w i user
           = (Err (ForbiddenException "You can only delete your own recipes"), w)
  end.
Proof.
  intros Hup. unfold RecipesService.remove, Prisma.findUnique, Prisma.delete. rewrite Hup.
  destruct (List.find _ _) as [r|] eqn:Hfind; [|reflexivity].
  destruct (String.eqb (Prisma.authorId r) user); cbn; [|reflexivity].
  assert (Hex : existsb (fun x => String.eqb (Prisma.id x) i)
                        (Prisma.recipes (RecipesService.db w)) = true).
  { apply existsb_exists. apply find_some in Hfind. now exists r. }
  rewrite Hex; cbn. repeat split.
  intros x Hx. apply filter_In in Hx as [_ Hx].
  apply negb_true_iff, String.eqb_neq in Hx. exact Hx.
Qed.

Lemma remove_only_by_author_witness :
  RecipesService.remove Scenario.after_create "r1" "u2"
  = (Err (ForbiddenException "You can only delete your own recipes"), Scenario.after_create).
Proof.
  apply (remove_only_by_author Scenario.after_create "r1" "u2"). reflexivity.
Defined.

Lemma bulk_fold_other (ops : list (string * Elasticsearch.Document))
    (docs : gmap string Elasticsearch.Document) (j : string) :
  ~ In j (map fst ops) ->
  fold_left (fun m op => <[fst op := snd op]> m) ops docs !! j = docs !! j.
Proof.
  revert docs; induction ops as [|[k d] ops IH]; intros docs Hj; cbn; [reflexivity|].
  cbn in Hj. rewrite IH by tauto.
  apply lookup_insert_ne. intros ->. tauto.
Qed.

Lemma bulk_fold_member (ops : list (string * Elasticsearch.Document))
    (docs : gmap string Elasticsearch.Document) (k : string) (d : Elasticsearch.Document) :
  List.NoDup (map fst ops) -> In (k, d) ops ->
  fold_left (fun m op => <[fst op := snd op]> m) ops docs !! k = Some d.
Proof.
  revert docs; induction ops as [|[k' d'] ops IH]; intros docs Hnd Hin; [destruct Hin|].
  cbn in Hnd. apply List.NoDup_cons_iff in Hnd as [Hfresh Hnd].
  destruct Hin as [[= -> ->]|Hin]; cbn.
  - rewrite bulk_fold_other by exact Hfresh. apply lookup_insert_eq.
  - now apply IH.
Qed.

(** X5. With both backends reachable and recipe ids unique,
    [indexAllRecipes] succeeds, leaves the document of every recipe of
    the store in the index under its id, and touches no other id. *)
Theorem indexAllRecipes_indexes_store (error_code : Error -> option string) es db :
  Elasticsearch.fault es = None ->
  Prisma.fault db = None ->
  List.NoDup (map Prisma.id (Prisma.recipes db)) ->
  exists es',
    indexAllRecipes error_code es db = Ok es'
    /\ (forall r, In r (Prisma.recipes db) ->
          Elasticsearch.documents es' !! Prisma.id r = Some (recipeData r))
    /\ (forall j, ~ In j (map Prisma.id (Prisma.recipes db)) ->
          Elasticsearch.documents es' !! j = Elasticsearch.documents es !! j).
Proof.
  intros Hes Hdb Hnd. unfold indexAllRecipes, Elasticsearch.bulk. rewrite Hdb, Hes.
  destruct (Prisma.recipes db) as [|r0 rows] eqn:Hrows.
  - exists es. cbn. repeat split. intros r [].
  - rewrite <- Hrows in *. rewrite length_map.
    replace (0 <? length (Prisma.recipes db))%nat with true
      by (rewrite Hrows; reflexivity).
    eexists; split; [reflexivity|]. cbn. split.
    + intros r Hr. apply bulk_fold_member.
      * now rewrite map_map.
      * apply in_map_iff. now exists r.
    + intros j Hj. apply bulk_fold_other. now rewrite map_map.
Qed.

Lemma indexAllRecipes_indexes_store_witness :
  exists es',
    indexAllRecipes (fun _ => None) Scenario.empty_index
                    (Scenario.store [Scenario.carbonara; Scenario.family_secret]) = Ok es'
    /\ (forall r, In r [Scenario.carbonara; Scenario.family_secret] ->
          Elasticsearch.documents es' !! Prisma.id r = Some (recipeData r))
    /\ (forall j, ~ In j (map Prisma.id [Scenario.carbonara; Scenario.family_secret]) ->
          Elasticsearch.documents es' !! j
          = Elasticsearch.documents Scenario.empty_index !! j).
Proof.
  apply (indexAllRecipes_indexes_store (fun _ => None) Scenario.empty_index
           (Scenario.store [Scenario.carbonara; Scenario.family_secret])).
  - reflexivity.
  - reflexivity.
  - cbn. repeat constructor; cbn; intuition discriminate.
Defined.

(** X6. [indexAllRecipes] drops an access-denied error (code P1010 or a
    message containing "denied access"), also one raised by the bulk
    call, and throws any other error again; with an empty store it sends
    no bulk request, so it succeeds even when the index is unreachable. *)
Theorem indexAllRecipes_error_handling (error_code : Error -> option string) es db :
  (forall e, Prisma.fault db = Some e ->
     indexAllRecipes error_code es db
     = if access_denied error_code e then Ok es else Err e)
  /\ (forall e, Prisma.fault db = None -> Prisma.recipes db <> [] ->
        Elasticsearch.fault es = Some e ->
        indexAllRecipes error_code es db
        = if access_denied error_code e then Ok es else Err e)
  /\ (Prisma.fault db = None -> Prisma.recipes db = [] ->
        indexAllRecipes error_code es db = Ok es).
Proof.
  unfold indexAllRecipes, Elasticsearch.bulk. repeat split.
  - intros e ->. reflexivity.
  - intros e -> Hne ->. rewrite length_map.
    destruct (Prisma.recipes db); [contradiction|]. reflexivity.
  - intros -> ->. reflexivity.
Qed.

Lemma indexAllRecipes_error_handling_witness :
  indexAllRecipes (fun _ => None) Scenario.unreachable_index (Scenario.store [])
  = Ok Scenario.unreachable_index
  /\ indexAllRecipes (fun _ => None) Scenario.unreachable_index
                     (Scenario.store [Scenario.carbonara])
     = Err (ConnectionError "connect ECONNREFUSED")
  /\ indexAllRecipes (fun _ => Some "P1010") Scenario.empty_index
       {| Prisma.fault := Some (PrismaClientError "User was denied access on the database");
          Prisma.recipes := [] |}
     = Ok Scenario.empty_index.
Proof.
  destruct (indexAllRecipes_error_handling (fun _ => None) Scenario.unreachable_index
              (Scenario.store [])) as (_ & _ & Hempty).
  destruct (indexAllRecipes_error_handling (fun _ => None) Scenario.unreachable_index
              (Scenario.store [Scenario.carbonara])) as (_ & Hindex & _).
  destruct (indexAllRecipes_error_handling (fun _ => Some "P1010") Scenario.empty_index
              {| Prisma.fault := Some (PrismaClientError "User was denied access on the database");
                 Prisma.recipes := [] |}) as (Hstore & _ & _).
  split; [apply Hempty; reflexivity|].
  split.
  - rewrite (Hindex (ConnectionError "connect ECONNREFUSED")); [reflexivity..|discriminate|reflexivity].
  - rewrite (Hstore (PrismaClientError "User was denied access on the database")); reflexivity.
Defined.

(** ** Pages and totals *)

Lemma page_length {A : Type} (before : A -> A -> bool) (skip take : nat) (l : list A) :
  length (firstn take (skipn skip (sort_by before l))) <= length l.
Proof.
  rewrite length_firstn, length_skipn, sort_by_length. lia.
Qed.

Lemma collect_length limit (l : list Elasticsearch.Document) :
  length (Elasticsearch.collect limit l) <= length l.
Proof.
  destruct limit; cbn [Elasticsearch.collect]; [lia|].
  rewrite length_firstn. lia.
Qed.

Lemma index_page_within_total es req resp :
  Elasticsearch.search es req = Ok resp ->
  length (response_recipes resp) <= response_total resp.
Proof.
  unfold Elasticsearch.search. destruct (Elasticsearch.fault es); [discriminate|].
  destruct (_ <? _)%nat; [discriminate|].
  intros [= <-]; cbn. rewrite !length_map. apply page_length.
Qed.

Lemma store_page_within_total db clause skip take res :
  query_database db clause skip take = Ok res ->
  length (recipes res) <= total res.
Proof.
  unfold query_database, Prisma.findMany, Prisma.count.
  destruct (Prisma.fault db); [discriminate|].
  intros [= <-]; cbn. rewrite !length_map. apply page_length.
Qed.

(** X7. Whatever the path, [searchRecipes] and [searchByIngredients]
    never return more items than the [total] they report. *)
Theorem page_never_exceeds_total es db skip take :
  (forall text filters res,
      searchRecipes es db text filters skip take = Ok res ->
      length (recipes res) <= total res)
  /\ (forall ingredients res,
      searchByIngredients es db ingredients skip take = Ok res ->
      length (recipes res) <= total res).
Proof.
  split.
  - intros text filters res. unfold searchRecipes, searchRecipesInDatabase.
    destruct (Elasticsearch.search es _) as [resp|e] eqn:Hs.
    + intros [= <-]; cbn. eapply index_page_within_total, Hs.
    + apply store_page_within_total.
  - intros ingredients res. unfold searchByIngredients.
    destruct (Elasticsearch.search es _) as [resp|e] eqn:Hs.
    + intros [= <-]; cbn. eapply index_page_within_total, Hs.
    + apply store_page_within_total.
Qed.

Lemma page_never_exceeds_total_witness :
  length (recipes {| recipes := [IndexItem (Elasticsearch.source_of (recipeData Scenario.carbonara))];
                     total := 1 |}) <= 1.
Proof.
  apply (proj1 (page_never_exceeds_total Scenario.mixed_index
                  (Scenario.store [Scenario.carbonara; Scenario.family_secret]) 0 10)
               EmptyString no_filters
               {| recipes := [IndexItem (Elasticsearch.source_of (recipeData Scenario.carbonara))];
                  total := 1 |}).
  vm_compute. reflexivity.
Defined.

Lemma sorted_firstn {A : Type} (R : A -> A -> Prop) (n : nat) (l : list A) :
  StronglySorted R l -> StronglySorted R (firstn n l).
Proof.
  intros Hs; revert n; induction Hs as [|x l Hs IH Hx]; intros [|n]; cbn;
    try constructor; [apply IH|].
  rewrite List.Forall_forall in *. intros y Hy. apply Hx. eapply In_firstn, Hy.
Qed.

Lemma sorted_skipn {A : Type} (R : A -> A -> Prop) (n : nat) (l : list A) :
  StronglySorted R l -> StronglySorted R (skipn n l).
Proof.
  intros Hs; revert n; induction Hs as [|x l Hs IH Hx]; intros [|n]; cbn;
    try constructor; auto.
Qed.

(** X8. The store path of [searchRecipes] answers its recipes newest
    first: the page is in non-increasing order of [createdAt]. *)
Theorem store_path_newest_first db text filters skip take res :
  searchRecipesInDatabase db text filters skip take = Ok res ->
  exists rows,
    recipes res = map (fun r => StoreItem (formatRecipe (Prisma.with_count r))) rows
    /\ StronglySorted (fun a b => (Prisma.createdAt b <= Prisma.createdAt a)%Z) rows.
Proof.
  unfold searchRecipesInDatabase, query_database, Prisma.findMany, Prisma.count.
  destruct (Prisma.fault db); [discriminate|].
  intros [= <-]; cbn. eexists. split; [now rewrite map_map|].
  apply sorted_firstn, sorted_skipn, createdAt_desc_sorted.
Qed.

Lemma store_path_newest_first_witness :
  exists rows,
    recipes {| recipes :=
                 map (fun r => StoreItem (formatRecipe (Prisma.with_count r)))
                     [Scenario.boiled_eggs; Scenario.carbonara];
               total := 2 |}
    = map (fun r => StoreItem (formatRecipe (Prisma.with_count r))) rows
    /\ StronglySorted (fun a b => (Prisma.createdAt b <= Prisma.createdAt a)%Z) rows.
Proof.
  apply (store_path_newest_first
           (Scenario.store [Scenario.carbonara; Scenario.boiled_eggs])
           EmptyString no_filters 0 10).
  vm_compute. reflexivity.
Defined.

(** X10. [findAll] lists exactly what the store path of [searchRecipes]
    answers for the same text, difficulty, cuisine and tags (and no other
    filter): the same recipes in the same order, or the same error. *)
Theorem findAll_is_store_path db skip take (search difficulty cuisine : option string)
    (tags : option (list string)) :
  match RecipesService.findAll db skip take search difficulty cuisine tags,
        searchRecipesInDatabase db (Js.string_or search EmptyString)
          {| SearchService.difficulty := difficulty; SearchService.cuisine := cuisine;
             SearchService.tags := tags; ingredients := None; minRating := None;
             maxPrepTime := None; maxCookTime := None |} skip take with
  | Ok listed, Ok res => recipes res = map StoreItem listed
  | Err e, Err e' => e = e'
  | _, _ => False
  end.
Proof.
  unfold RecipesService.findAll, searchRecipesInDatabase, query_database, databaseWhere.
  cbn [SearchService.difficulty SearchService.cuisine SearchService.tags ingredients
       maxPrepTime maxCookTime Js.non_empty Js.truthy_opt_int].
  assert (Htext :
    (if Js.truthy_opt_string search then search else None)
    = (if Js.truthy_string (Js.string_or search EmptyString)
       then Some (Js.string_or search EmptyString) else None)).
  { destruct search as [[|c t]|]; reflexivity. }
  rewrite Htext.
  unfold Prisma.findMany, Prisma.count.
  destruct (Prisma.fault db); [reflexivity|].
  cbn. now rewrite !List.map_map.
Qed.

(** ** The two paths compared *)

Lemma existsb_value_strings (v : string) (l : list string) :
  existsb (Elasticsearch.value_eqb (Elasticsearch.VString v)) (map Elasticsearch.VString l)
  = existsb (String.eqb v) l.
Proof. induction l as [|x l IH]; cbn; [reflexivity | now rewrite IH]. Qed.

Lemma existsb_pointwise {A : Type} (f g : A -> Datatypes.bool) (l : list A) :
  (forall x, f x = g x) -> existsb f l = existsb g l.
Proof. intros H; induction l as [|x l IH]; cbn; [reflexivity | now rewrite H, IH]. Qed.

Lemma forallb_app_single {A : Type} (f : A -> Datatypes.bool) (l : list A) (x : A) :
  forallb f (l ++ [x]) = forallb f l && f x.
Proof. rewrite forallb_app; cbn. now rewrite andb_true_r. Qed.

Lemma must_difficulty rel (r : Prisma.RecipeRow) (d : option string) :
  forallb (Elasticsearch.matches rel (recipeData r))
    (push_string d (fun d0 => Elasticsearch.term "difficulty" (Elasticsearch.VString d0)))
  = match d with
    | Some (String a s0) => String.eqb (Prisma.difficulty r) (String a s0)
    | _ => true
    end.
Proof.
  destruct d as [[|a s0]|]; try reflexivity.
  cbn [push_string Js.truthy_string forallb Elasticsearch.matches
       Elasticsearch.field_values recipeData Elasticsearch.difficulty
       existsb Elasticsearch.value_eqb].
  rewrite orb_false_r, andb_true_r. apply String.eqb_sym.
Qed.

Lemma must_tags rel (r : Prisma.RecipeRow) (ts : option (list string)) :
  forallb (Elasticsearch.matches rel (recipeData r))
    (push_array ts (fun l => Elasticsearch.terms "tags" l))
  = match ts with
    | Some (t :: l) => Prisma.hasSome (Prisma.tags r) (t :: l)
    | _ => true
    end.
Proof.
  destruct ts as [[|t l]|]; try reflexivity.
  cbn [push_array forallb Elasticsearch.matches]. rewrite andb_true_r.
  unfold Prisma.hasSome, Js.array_includes.
  cbn [Elasticsearch.field_values recipeData Elasticsearch.tags].
  apply existsb_pointwise. intros x. apply existsb_value_strings.
Qed.

Lemma must_range rel (r : Prisma.RecipeRow) (field : string) (o col : option Z) :
  Elasticsearch.field_values (recipeData r) field
  = Elasticsearch.opt_values Elasticsearch.VInt col ->
  forallb (Elasticsearch.matches rel (recipeData r))
    (push_int o (fun n => Elasticsearch.range_lte field n))
  = match o with
    | Some n => if (n =? 0)%Z then true else Prisma.lte_opt col n
    | None => true
    end.
Proof.
  intros Hfield. destruct o as [n|]; [|reflexivity].
  unfold push_int. destruct (n =? 0)%Z; [reflexivity|].
  cbn [forallb Elasticsearch.matches]. rewrite Hfield, andb_true_r.
  destruct col; cbn; [now rewrite orb_false_r | reflexivity].
Qed.

(** X11. For a recipe indexed by [indexRecipe], a search without text,
    cuisine filter and ingredients filter selects it on the index path
    exactly when it selects it on the store path: the two paths agree on
    [isPublic], [difficulty], [tags], [maxPrepTime] and [maxCookTime]. *)
Theorem paths_agree_on_exact_filters rel (r : Prisma.RecipeRow) filters skip take :
  Js.truthy_opt_string (cuisine filters) = false ->
  Js.non_empty (ingredients filters) = false ->
  Elasticsearch.matches rel (recipeData r)
    (Elasticsearch.query (searchBody EmptyString filters skip take))
  = Prisma.where_matches (databaseWhere EmptyString filters) r.
Proof.
  intros Hc Hi. rewrite databaseWhere_matches.
  destruct filters as [d c ts xs m p k]; cbn in Hc, Hi.
  assert (Hcq : c = None \/ c = Some EmptyString)
    by (destruct c as [[|]|]; cbn in Hc; [now right | discriminate | now left]).
  assert (Hxq : xs = None \/ xs = Some [])
    by (destruct xs as [[|]|]; cbn in Hi; [now right | discriminate | now left]).
  unfold searchBody, mustQueries, store_filters.
  cbn [Elasticsearch.query Elasticsearch.matches shouldQueries Js.truthy_string
       difficulty cuisine tags ingredients maxPrepTime maxCookTime List.filter length].
  rewrite !forallb_app.
  rewrite must_difficulty, must_tags,
    (must_range rel r "prepTime" p (Prisma.prepTime r) eq_refl),
    (must_range rel r "cookTime" k (Prisma.cookTime r) eq_refl).
  replace (forallb (Elasticsearch.matches rel (recipeData r))
             [Elasticsearch.term "isPublic" (Elasticsearch.VBool true)])
    with (Prisma.isPublic r) by (cbn; now destruct (Prisma.isPublic r)).
  destruct Hcq as [-> | ->], Hxq as [-> | ->]; cbn [push_string push_array forallb
    Js.truthy_string];
    destruct (Prisma.isPublic r); cbn [andb];
    rewrite ?andb_true_r, ?andb_false_r, ?andb_assoc; reflexivity.
Qed.

Lemma paths_agree_on_exact_filters_witness :
  Elasticsearch.matches Scenario.substring_engine (recipeData Scenario.boiled_eggs)
    (Elasticsearch.query
       (searchBody EmptyString
          {| SearchService.difficulty := Some "EASY"; cuisine := None;
             tags := Some ["breakfast"; "brunch"];
             ingredients := None; minRating := None;
             maxPrepTime := Some 5%Z; maxCookTime := Some 10%Z |} 0 10))
  = Prisma.where_matches
      (databaseWhere EmptyString
         {| SearchService.difficulty := Some "EASY"; cuisine := None;
             tags := Some ["breakfast"; "brunch"];
            ingredients := None; minRating := None;
            maxPrepTime := Some 5%Z; maxCookTime := Some 10%Z |})
      Scenario.boiled_eggs.
Proof.
  apply (paths_agree_on_exact_filters Scenario.substring_engine Scenario.boiled_eggs);
    reflexivity.
Defined.

Lemma ingredients_clause_in_must filters x xs :
  ingredients filters = Some (x :: xs) ->
  In (Elasticsearch.bool []
        (map (fun ingredient =>
                Elasticsearch.term "ingredients.keyword"
                  (Elasticsearch.VString (Js.toLowerCase ingredient))) (x :: xs)) 1)
     (mustQueries filters).
Proof.
  intros Hx. unfold mustQueries. rewrite Hx.
  do 3 (apply in_or_app; right). apply in_or_app; left. now left.
Qed.

Lemma search_hits_stored es req resp (h : Elasticsearch.Hit) hs :
  Elasticsearch.search es req = Ok resp ->
  Elasticsearch.hits_hits resp = Some hs ->
  In h hs ->
  exists k d,
    Elasticsearch.documents es !! k = Some d
    /\ h = Elasticsearch.hit_of d
    /\ Elasticsearch.matches (Elasticsearch.relevance es) d (Elasticsearch.query req) = true.
Proof.
  unfold Elasticsearch.search. destruct (Elasticsearch.fault es); [discriminate|].
  destruct (_ <? _)%nat; [discriminate|].
  intros [= <-]; cbn. intros [= <-] Hin.
  apply in_map_iff in Hin as (d & <- & Hd).
  apply In_page, In_collect, filter_In in Hd as [Hd Hm].
  apply in_map_iff in Hd as ([k d'] & Hsnd & Hkd). cbn in Hsnd. subst d'.
  apply list_elem_of_In, elem_of_map_to_list in Hkd.
  exists k, d. auto.
Qed.

(** X12. On the index path an [ingredients] filter compares the whole
    ingredient text of a document.  In an index that holds each document
    under its own id, and for requested ingredients in ASCII, every hit
    is the [_source] of the document stored under the hit's id, and the
    ingredient names of that document, joined by spaces, are exactly the
    lower-cased form of one of the requested ingredients. *)
Theorem index_ingredients_filter_whole_text es text filters skip take resp hs
    (h : Elasticsearch.Hit) (x : string) (xs : list string) :
  (forall k d, Elasticsearch.documents es !! k = Some d -> Elasticsearch.id d = k) ->
  forallb Js.is_ascii (x :: xs) = true ->
  ingredients filters = Some (x :: xs) ->
  Elasticsearch.search es (searchBody text filters skip take) = Ok resp ->
  Elasticsearch.hits_hits resp = Some hs ->
  In h hs ->
  exists d y,
    Elasticsearch.documents es !! Elasticsearch._id h = Some d
    /\ Elasticsearch._source h = Elasticsearch.source_of d
    /\ In y (x :: xs)
    /\ Elasticsearch.ingredients d = Js.toLowerCase y.
Proof.
  intros Hkeyed _ Hx Hs Hhs Hh.
  destruct (search_hits_stored _ _ _ _ _ Hs Hhs Hh) as (k & d & Hkd & -> & Hm).
  cbn [searchBody Elasticsearch.query Elasticsearch.matches] in Hm.
  apply andb_prop in Hm as [Hm _]. rewrite forallb_forall in Hm.
  specialize (Hm _ (ingredients_clause_in_must _ _ _ Hx)).
  cbn [Elasticsearch.matches forallb andb] in Hm.
  apply Nat.leb_le in Hm.
  destruct (List.filter _ _) as [|q qs] eqn:Hf; [cbn in Hm; lia|].
  assert (Hq : In q (q :: qs)) by now left.
  rewrite <- Hf in Hq. apply filter_In in Hq as [Hq Hmq].
  apply in_map_iff in Hq as (y & <- & Hy).
  exists d, y. cbn [Elasticsearch.hit_of Elasticsearch._id Elasticsearch._source].
  split; [now rewrite (Hkeyed k d Hkd)|].
  split; [reflexivity|]. split; [exact Hy|].
  cbn [Elasticsearch.matches Elasticsearch.field_values existsb
       Elasticsearch.value_eqb] in Hmq.
  rewrite orb_false_r in Hmq. apply String.eqb_eq in Hmq. now symmetry.
Qed.

Lemma index_ingredients_filter_whole_text_witness :
  exists d y,
    Elasticsearch.documents Scenario.breakfast_index
      !! Elasticsearch._id (Elasticsearch.hit_of (recipeData Scenario.boiled_eggs)) = Some d
    /\ Elasticsearch._source (Elasticsearch.hit_of (recipeData Scenario.boiled_eggs))
       = Elasticsearch.source_of d
    /\ In y ["Eggs"]
    /\ Elasticsearch.ingredients d = Js.toLowerCase y.
Proof.
  apply (index_ingredients_filter_whole_text Scenario.breakfast_index EmptyString
           {| SearchService.difficulty := None; cuisine := None; tags := None;
              ingredients := Some ["Eggs"]; minRating := None;
              maxPrepTime := None; maxCookTime := None |} 0 10
           {| Elasticsearch.hits_total := Some (Elasticsearch.TotalObject (Some 1));
              Elasticsearch.hits_hits :=
                Some [Elasticsearch.hit_of (recipeData Scenario.boiled_eggs)] |}
           [Elasticsearch.hit_of (recipeData Scenario.boiled_eggs)]).
  - intros k d Hkd. cbn in Hkd.
    apply lookup_insert_Some in Hkd as [[<- <-]|[_ Hkd]]; [reflexivity|].
    apply lookup_insert_Some in Hkd as [[<- <-]|[_ Hkd]]; [reflexivity|].
    rewrite lookup_empty in Hkd. discriminate.
  - reflexivity.
  - reflexivity.
  - vm_compute. reflexivity.
  - reflexivity.
  - now left.
Defined.

(** ** Suggestions *)

Lemma unique_from_spec {A : Type} (eqb : A -> A -> Datatypes.bool) :
  (forall a b, eqb a b = true <-> a = b) ->
  forall l seen,
    List.NoDup (Js.unique_from eqb seen l)
    /\ forall x, In x (Js.unique_from eqb seen l) -> In x l /\ ~ In x seen.
Proof.
  intros Heq. induction l as [|a l IH]; intros seen; cbn.
  - split; [constructor | intros x []].
  - destruct (existsb (eqb a) seen) eqn:Hseen.
    + destruct (IH seen) as [Hnd Hin]. split; [exact Hnd|].
      intros x Hx. destruct (Hin x Hx). tauto.
    + destruct (IH (a :: seen)) as [Hnd Hin]. split.
      * constructor; [|exact Hnd]. intros Ha. destruct (Hin a Ha) as [_ Hn].
        apply Hn. now left.
      * intros x [<-|Hx].
        -- split; [now left|]. intros Ha.
           assert (existsb (eqb a) seen = true) as Hex
             by (apply existsb_exists; exists a; split; [exact Ha | now apply Heq]).
           congruence.
        -- destruct (Hin x Hx) as [Hl Hn]. split; [now right|].
           intros Hs. apply Hn. now right.
Qed.

Lemma unique_NoDup {A : Type} (eqb : A -> A -> Datatypes.bool) (l : list A) :
  (forall a b, eqb a b = true <-> a = b) -> List.NoDup (Js.unique eqb l).
Proof. intros Heq. apply (unique_from_spec eqb Heq l []). Qed.

Lemma unique_In {A : Type} (eqb : A -> A -> Datatypes.bool) (l : list A) (x : A) :
  (forall a b, eqb a b = true <-> a = b) -> In x (Js.unique eqb l) -> In x l.
Proof. intros Heq Hx. now apply (unique_from_spec eqb Heq l []). Qed.

Lemma opt_string_eqb_eq (a b : option string) :
  Prisma.opt_string_eqb a b = true <-> a = b.
Proof.
  destruct a as [x|], b as [y|]; cbn; try (split; congruence).
  rewrite String.eqb_eq. split; congruence.
Qed.

Lemma NoDup_firstn {A : Type} (n : nat) (l : list A) :
  List.NoDup l -> List.NoDup (firstn n l).
Proof.
  intros Hnd; revert n; induction Hnd as [|x l Hx Hnd IH]; intros [|n]; cbn;
    try constructor; [|apply IH].
  intros Hin. apply Hx. eapply In_firstn, Hin.
Qed.

Lemma omap_some_In (l : list (option string)) (x : string) :
  In x (omap (fun c => c) l) <-> In (Some x) l.
Proof.
  induction l as [|[y|] l IH]; cbn; [tauto| |].
  - rewrite IH. split; intros [H|H]; auto; left; congruence.
  - rewrite IH. split; [auto | intros [H|H]; [discriminate | exact H]].
Qed.

Lemma omap_some_NoDup (l : list (option string)) :
  List.NoDup l -> List.NoDup (omap (fun c => c) l).
Proof.
  induction 1 as [|[y|] l Hx Hnd IH]; cbn; [constructor| |exact IH].
  constructor; [|exact IH]. now rewrite omap_some_In.
Qed.

Lemma suggestions_ok_nil text : suggestions_ok text [].
Proof. split; [cbn; lia|]. split; [constructor | intros s []]. Qed.

Lemma suggest_ingredients_ok db text : suggestions_ok text (suggest_ingredients db text).
Proof.
  unfold suggest_ingredients, Prisma.ingredient_findMany_names.
  destruct (Prisma.fault db); [apply suggestions_ok_nil|].
  split; [apply firstn_le_length|]. split.
  - apply NoDup_firstn, unique_NoDup, String.eqb_eq.
  - intros s Hs. apply In_firstn, unique_In in Hs; [|apply String.eqb_eq].
    apply filter_In in Hs as [_ Hs]. exact Hs.
Qed.

Lemma suggest_cuisine_ok db text : suggestions_ok text (suggest_cuisine db text).
Proof.
  unfold suggest_cuisine, Prisma.recipe_findMany_cuisines.
  destruct (Prisma.fault db); [apply suggestions_ok_nil|].
  set (found := Js.unique _ _).
  assert (Hnd : List.NoDup (firstn 10 found))
    by apply NoDup_firstn, unique_NoDup, opt_string_eqb_eq.
  split; [|split].
  - etransitivity; [|apply (firstn_le_length 10 found)].
    clear Hnd. induction (firstn 10 found) as [|[c|] l IH]; cbn; lia.
  - now apply omap_some_NoDup.
  - intros s Hs. apply omap_some_In, In_firstn, unique_In in Hs;
      [|apply opt_string_eqb_eq].
    apply in_map_iff in Hs as (r & Hr & Hin).
    apply filter_In in Hin as [_ Hin]. rewrite Hr in Hin. exact Hin.
Qed.

Lemma suggest_tags_ok db text : suggestions_ok text (suggest_tags db text).
Proof.
  unfold suggest_tags, Prisma.recipe_findMany_tags.
  destruct (Prisma.fault db); [apply suggestions_ok_nil|].
  split; [apply firstn_le_length|]. split.
  - apply NoDup_firstn, List.NoDup_filter, unique_NoDup, String.eqb_eq.
  - intros s Hs. apply In_firstn, filter_In in Hs as [_ Hs]. exact Hs.
Qed.

Lemma getSuggestions_cases db text field :
  getSuggestions db text field = []
  \/ (2 <= String.length text
      /\ (getSuggestions db text field = suggest_ingredients db text
          \/ getSuggestions db text field = suggest_cuisine db text
          \/ getSuggestions db text field = suggest_tags db text)).
Proof.
  unfold getSuggestions.
  destruct (negb (Js.truthy_string text)) eqn:Ht; cbn [orb]; [now left|].
  destruct (String.length text <? 2)%nat eqn:Hlen; [now left|].
  apply Nat.ltb_ge in Hlen.
  repeat match goal with
         | |- context [match ?x with _ => _ end] => destruct x; auto
         end.
Qed.

(** X13. [getSuggestions] never raises and answers at most ten distinct
    suggestions, each containing the typed text irrespective of case; a
    text shorter than two characters, an unknown field and an
    unreachable store all give the empty list. *)
Theorem getSuggestions_bounded db (text field : string) :
  length (getSuggestions db text field) <= 10
  /\ List.NoDup (getSuggestions db text field)
  /\ (forall s, In s (getSuggestions db text field) ->
        2 <= String.length text
        /\ Js.includes (Js.toLowerCase s) (Js.toLowerCase text) = true)
  /\ (forall e, Prisma.fault db = Some e -> getSuggestions db text field = []).
Proof.
  assert (Hok : suggestions_ok text (getSuggestions db text field)
                /\ (getSuggestions db text field <> [] -> 2 <= String.length text)).
  { destruct (getSuggestions_cases db text field) as [-> | (Hlen & [-> | [-> | ->]])].
    - split; [apply suggestions_ok_nil | congruence].
    - split; [apply suggest_ingredients_ok | auto].
    - split; [apply suggest_cuisine_ok | auto].
    - split; [apply suggest_tags_ok | auto]. }
  destruct Hok as ((Hlen & Hnd & Hin) & Htext).
  split; [exact Hlen|]. split; [exact Hnd|]. split.
  - intros s Hs. split; [|now apply Hin].
    apply Htext. intros Hnil. rewrite Hnil in Hs. destruct Hs.
  - intros e He.
    destruct (getSuggestions_cases db text field) as [H | (_ & [H | [H | H]])];
      rewrite H; try reflexivity.
    + unfold suggest_ingredients, Prisma.ingredient_findMany_names. now rewrite He.
    + unfold suggest_cuisine, Prisma.recipe_findMany_cuisines. now rewrite He.
    + unfold suggest_tags, Prisma.recipe_findMany_tags. now rewrite He.
Qed.

Lemma getSuggestions_bounded_witness :
  getSuggestions (Scenario.store [Scenario.carbonara; Scenario.boiled_eggs]) "EG" "ingredients"
  = ["eggs"]
  /\ 2 <= String.length "EG"
  /\ Js.includes (Js.toLowerCase "eggs") (Js.toLowerCase "EG") = true.
Proof.
  split; [vm_compute; reflexivity|].
  apply (getSuggestions_bounded (Scenario.store [Scenario.carbonara; Scenario.boiled_eggs])
           "EG" "ingredients").
  vm_compute. now left.
Defined.

(** X14. Tag suggestions only come from recipes that carry the typed
    text itself as a tag: when no recipe of the store has a tag equal to
    the text, [getSuggestions] for tags is empty, however many tags
    contain the text. *)
Theorem tag_suggestions_need_exact_tag db (text : string) :
  (forall r, In r (Prisma.recipes db) -> Js.array_includes (Prisma.tags r) text = false) ->
  getSuggestions db text "tags" = [].
Proof.
  intros Hnone. unfold getSuggestions.
  destruct (_ || _); [reflexivity|].
  unfold suggest_tags, Prisma.recipe_findMany_tags.
  destruct (Prisma.fault db); [reflexivity|].
  assert (Hf : List.filter (fun r => Prisma.hasSome (Prisma.tags r) [text]) (Prisma.recipes db) = []).
  { induction (Prisma.recipes db) as [|r l IH]; [reflexivity|].
    cbn. rewrite (Hnone r) by now left. cbn. apply IH.
    intros r' Hr'. apply Hnone. now right. }
  rewrite Hf. reflexivity.
Qed.

Lemma tag_suggestions_need_exact_tag_witness :
  getSuggestions (Scenario.store [Scenario.boiled_eggs]) "break" "tags" = []
  /\ getSuggestions (Scenario.store [Scenario.boiled_eggs]) "breakfast" "tags" = ["breakfast"].
Proof.
  split; [|vm_compute; reflexivity].
  apply (tag_suggestions_need_exact_tag (Scenario.store [Scenario.boiled_eggs]) "break").
  intros r [<-|[]]. reflexivity.
Defined.

(** ** Ratings and trend scores *)

Lemma sum_ratings_bounds (rs : list Prisma.Rating) (lo hi : Z) :
  (forall x, In x rs -> (lo <= Prisma.rating x <= hi)%Z) ->
  (Z.of_nat (length rs) * lo <= sum_ratings rs <= Z.of_nat (length rs) * hi)%Z.
Proof.
  intros Hb. unfold sum_ratings. rewrite fold_left_sum.
  induction rs as [|r rs IH]; [cbn; lia|].
  assert (Hr : (lo <= Prisma.rating r <= hi)%Z) by (apply Hb; now left).
  assert (Hrs : forall x, In x rs -> (lo <= Prisma.rating x <= hi)%Z)
    by (intros x Hx; apply Hb; now right).
  specialize (IH Hrs). cbn [length map fold_right]. lia.
Qed.

Lemma mean_between (total n lo hi : Z) :
  (0 < n)%Z -> (n * lo <= total <= n * hi)%Z ->
  (inject_Z lo <= inject_Z total / inject_Z n <= inject_Z hi)%Q.
Proof.
  intros Hn [Hlo Hhi].
  assert (Hpos : (0 < inject_Z n)%Q)
    by (change (inject_Z 0 < inject_Z n)%Q; rewrite <- Zlt_Qlt; exact Hn).
  split.
  - apply Qle_shift_div_l; [exact Hpos|].
    rewrite <- inject_Z_mult, <- Zle_Qle. lia.
  - apply Qle_shift_div_r; [exact Hpos|].
    rewrite <- inject_Z_mult, <- Zle_Qle. lia.
Qed.

(** X15. [formatRecipe] reports no [averageRating] exactly for a recipe
    without ratings; otherwise the average lies between any two bounds
    that all its ratings respect (between 1 and 5 for validated ratings). *)
Theorem averageRating_between_bounds (r : Prisma.Recipe) (lo hi : Z) :
  (forall x, In x (Prisma.ratings (Prisma.row r)) -> (lo <= Prisma.rating x <= hi)%Z) ->
  match averageRating (formatRecipe r) with
  | Some a => (inject_Z lo <= a <= inject_Z hi)%Q /\ Prisma.ratings (Prisma.row r) <> []
  | None => Prisma.ratings (Prisma.row r) = []
  end.
Proof.
  intros Hb. unfold formatRecipe; cbn [averageRating].
  destruct (Prisma.ratings (Prisma.row r)) as [|x rs] eqn:Hrs; [reflexivity|].
  replace (0 <? length (x :: rs))%nat with true by reflexivity.
  split; [|discriminate].
  apply mean_between; [cbn [length]; lia|].
  apply sum_ratings_bounds. exact Hb.
Qed.

Lemma averageRating_between_bounds_witness :
  match averageRating (formatRecipe (Prisma.with_count Scenario.boiled_eggs)) with
  | Some a => (inject_Z 1 <= a <= inject_Z 5)%Q
              /\ Prisma.ratings (Prisma.row (Prisma.with_count Scenario.boiled_eggs)) <> []
  | None => Prisma.ratings (Prisma.row (Prisma.with_count Scenario.boiled_eggs)) = []
  end.
Proof.
  apply (averageRating_between_bounds (Prisma.with_count Scenario.boiled_eggs) 1 5).
  intros x [<-|[<-|[]]]; cbn; lia.
Defined.

(** X16. [getTrendingRecipes] rejects a limit outside [1, 50] with a 400
    error before it reads the store (limit 0 as a missing input), and for
    a limit inside the range it never raises: an unreachable store gives
    the empty list. *)
Theorem getTrendingRecipes_limit_handling (clock : nat -> Z) db (limit : Z) :
  (limit = 0%Z ->
     getTrendingRecipes clock db limit
     = Err (HttpException "limit is required and cannot be empty" 400))
  /\ ((limit < 0)%Z \/ (50 < limit)%Z ->
        getTrendingRecipes clock db limit
        = Err (HttpException "Limit must be between 1 and 50" 400))
  /\ ((1 <= limit <= 50)%Z ->
        (exists out, getTrendingRecipes clock db limit = Ok out)
        /\ (forall e, Prisma.fault db = Some e -> getTrendingRecipes clock db limit = Ok [])).
Proof.
  unfold getTrendingRecipes, validateInput. repeat split.
  - intros ->. reflexivity.
  - intros Hout.
    replace (limit =? 0)%Z with false by (symmetry; apply Z.eqb_neq; lia).
    replace ((limit <=? 0) || (50 <? limit))%Z with true; [reflexivity|].
    symmetry. apply orb_true_iff. destruct Hout; [left; apply Z.leb_le | right; apply Z.ltb_lt]; lia.
  - replace (limit =? 0)%Z with false by (symmetry; apply Z.eqb_neq; lia).
    replace ((limit <=? 0) || (50 <? limit))%Z with false
      by (symmetry; apply orb_false_intro; [apply Z.leb_gt | apply Z.ltb_ge]; lia).
    destruct (fetchCandidates db limit) as [[|c cs]|e]; eexists; reflexivity.
  - intros e He.
    replace (limit =? 0)%Z with false by (symmetry; apply Z.eqb_neq; lia).
    replace ((limit <=? 0) || (50 <? limit))%Z with false
      by (symmetry; apply orb_false_intro; [apply Z.leb_gt | apply Z.ltb_ge]; lia).
    unfold fetchCandidates, Prisma.findMany. now rewrite He.
Qed.

Lemma getTrendingRecipes_limit_handling_witness :
  getTrendingRecipes Scenario.frozen_clock (Scenario.store [Scenario.carbonara]) 0
  = Err (HttpException "limit is required and cannot be empty" 400)
  /\ getTrendingRecipes Scenario.frozen_clock (Scenario.store [Scenario.carbonara]) 51
     = Err (HttpException "Limit must be between 1 and 50" 400)
  /\ getTrendingRecipes Scenario.frozen_clock
       {| Prisma.fault := Some (PrismaClientError "Can't reach database server");
          Prisma.recipes := [Scenario.carbonara] |} 50
     = Ok [].
Proof.
  split; [|split].
  - apply (getTrendingRecipes_limit_handling Scenario.frozen_clock
             (Scenario.store [Scenario.carbonara]) 0). reflexivity.
  - apply (getTrendingRecipes_limit_handling Scenario.frozen_clock
             (Scenario.store [Scenario.carbonara]) 51). right. lia.
  - destruct (getTrendingRecipes_limit_handling Scenario.frozen_clock
                {| Prisma.fault := Some (PrismaClientError "Can't reach database server");
                   Prisma.recipes := [Scenario.carbonara] |} 50) as (_ & _ & Hin).
    destruct Hin as [_ Hdown]; [lia|].
    apply (Hdown (PrismaClientError "Can't reach database server")). reflexivity.
Defined.

Lemma by_trendScore_sorted (l : list ScoredRecipe) :
  StronglySorted (fun a b => (trendScore b <= trendScore a)%Q) (sort_by by_trendScore l).
Proof.
  apply sort_by_sorted; unfold by_trendScore.
  - intros a b H. now apply Qle_bool_iff.
  - intros a b H. apply Qlt_le_weak, Qnot_le_lt. intros Hle.
    apply Qle_bool_iff in Hle. congruence.
  - intros a b c Hab Hbc. eapply Qle_trans; eauto.
Qed.

(** X17. For a limit in [1, 50] and a reachable store,
    [getTrendingRecipes] answers the best-scored candidates in order: the
    fetched candidates, each scored at its clock reading, split into the
    recipes kept and those dropped; the kept ones are in non-increasing
    order of trend score, none of them scores lower than a dropped one,
    there are exactly [min(limit, number of recipes)] of them, and the
    answer is their presentation in that order. *)
Theorem trending_sorted_by_score (clock : nat -> Z) db (limit : Z) :
  (1 <= limit <= 50)%Z ->
  Prisma.fault db = None ->
  exists cands kept dropped,
    fetchCandidates db limit = Ok cands
    /\ Permutation (kept ++ dropped)
         (imap (fun i c => score_recipe (clock i) c) cands)
    /\ StronglySorted (fun a b => (trendScore b <= trendScore a)%Q) kept
    /\ (forall k d, In k kept -> In d dropped -> (trendScore d <= trendScore k)%Q)
    /\ length kept = Nat.min (Z.to_nat limit) (length (Prisma.recipes db))
    /\ getTrendingRecipes clock db limit = Ok (map present kept).
Proof.
  intros Hlimit Hup.
  set (n := Z.to_nat (Z.min (limit * 3) 100)).
  set (cands := map Prisma.with_count
                  (firstn n (sort_by Prisma.createdAt_desc (Prisma.recipes db)))).
  assert (Hfetch : fetchCandidates db limit = Ok cands).
  { unfold fetchCandidates, Prisma.findMany. rewrite Hup.
    rewrite (filter_all _ _ where_all_matches). reflexivity. }
  assert (Hcands : length cands = Nat.min n (length (Prisma.recipes db))).
  { unfold cands. now rewrite length_map, length_firstn, sort_by_length. }
  set (ranked := sort_by by_trendScore (imap (fun i c => score_recipe (clock i) c) cands)).
  exists cands, (firstn (Z.to_nat limit) ranked), (skipn (Z.to_nat limit) ranked).
  split; [exact Hfetch|].
  split; [rewrite firstn_skipn; apply sort_by_perm|].
  split; [apply sorted_firstn, by_trendScore_sorted|].
  split.
  { intros k d Hk Hd.
    apply (sorted_split (fun a b => (trendScore b <= trendScore a)%Q)
             (firstn (Z.to_nat limit) ranked) (skipn (Z.to_nat limit) ranked)); auto.
    rewrite firstn_skipn. apply by_trendScore_sorted. }
  split.
  { rewrite length_firstn. unfold ranked.
    rewrite sort_by_length, length_imap, Hcands. unfold n. lia. }
  unfold getTrendingRecipes, validateInput.
  replace (limit =? 0)%Z with false by (symmetry; apply Z.eqb_neq; lia).
  replace ((limit <=? 0) || (50 <? limit))%Z with false
    by (symmetry; apply orb_false_intro; [apply Z.leb_gt | apply Z.ltb_ge]; lia).
  rewrite Hfetch. unfold ranked.
  destruct cands as [|c cs]; [|reflexivity].
  cbn. now rewrite firstn_nil.
Qed.

Lemma trending_sorted_by_score_witness :
  exists cands kept dropped,
    fetchCandidates (Scenario.store [Scenario.carbonara; Scenario.boiled_eggs]) 1 = Ok cands
    /\ Permutation (kept ++ dropped)
         (imap (fun i c => score_recipe (Scenario.frozen_clock i) c) cands)
    /\ StronglySorted (fun a b => (trendScore b <= trendScore a)%Q) kept
    /\ (forall k d, In k kept -> In d dropped -> (trendScore d <= trendScore k)%Q)
    /\ length kept
       = Nat.min (Z.to_nat 1)
           (length (Prisma.recipes (Scenario.store [Scenario.carbonara; Scenario.boiled_eggs])))
    /\ getTrendingRecipes Scenario.frozen_clock
         (Scenario.store [Scenario.carbonara; Scenario.boiled_eggs]) 1
       = Ok (map present kept).
Proof.
  apply (trending_sorted_by_score Scenario.frozen_clock
           (Scenario.store [Scenario.carbonara; Scenario.boiled_eggs]) 1).
  - lia.
  - reflexivity.
Defined.

Lemma days_nonneg (now : Z) (r : Prisma.Recipe) :
  (Prisma.createdAt (Prisma.row r) <= now)%Z -> (0 <= daysSinceCreated now r)%Q.
Proof.
  intros H. unfold daysSinceCreated. apply Qle_shift_div_l; [reflexivity|].
  rewrite Qmult_0_l. change (inject_Z 0 <= inject_Z (now - Prisma.createdAt (Prisma.row r)))%Q.
  rewrite <- Zle_Qle. lia.
Qed.

Lemma recencyScore_le_1 (days : Q) : (0 <= days)%Q -> (recencyScore days <= 1)%Q.
Proof.
  intros H. unfold recencyScore. apply Qle_shift_div_r; [reflexivity|].
  apply Q.max_lub; lra.
Qed.

(** X18. The recency part of the trend score is 0 for a recipe created
    30 days ago or earlier, at most 1 for a recipe not created in the
    future, and above 1 for one created in the future: the score is
    floored at 0 but not capped at 1. *)
Theorem recencyScore_edges (now : Z) (r : Prisma.Recipe) :
  ((Prisma.createdAt (Prisma.row r) + 30 * 86400000 <= now)%Z ->
     (recencyScore (daysSinceCreated now r) == 0)%Q)
  /\ ((Prisma.createdAt (Prisma.row r) <= now)%Z ->
        (recencyScore (daysSinceCreated now r) <= 1)%Q)
  /\ ((now < Prisma.createdAt (Prisma.row r))%Z ->
        (1 < recencyScore (daysSinceCreated now r))%Q).
Proof.
  repeat split.
  - intros Hold.
    assert (Hdays : (30 <= daysSinceCreated now r)%Q).
    { unfold daysSinceCreated, ms_per_day. apply Qle_shift_div_l; [reflexivity|].
      change (30 * inject_Z (1000 * 60 * 60 * 24))%Q with (inject_Z (30 * 86400000)).
      rewrite <- Zle_Qle. lia. }
    unfold recencyScore. rewrite Q.max_l by lra. reflexivity.
  - intros Hpast. apply recencyScore_le_1, days_nonneg, Hpast.
  - intros Hfuture.
    assert (Hdays : (daysSinceCreated now r < 0)%Q).
    { unfold daysSinceCreated, ms_per_day. apply Qlt_shift_div_r; [reflexivity|].
      rewrite Qmult_0_l.
      change (inject_Z (now - Prisma.createdAt (Prisma.row r)) < inject_Z 0)%Q.
      rewrite <- Zlt_Qlt. lia. }
    unfold recencyScore. apply Qlt_shift_div_l; [reflexivity|].
    eapply Qlt_le_trans; [|apply Q.le_max_r]. lra.
Qed.

Lemma recencyScore_edges_witness :
  (recencyScore (daysSinceCreated (30 * 86400000) (Prisma.with_count Scenario.carbonara)) == 0)%Q
  /\ (1 < recencyScore (daysSinceCreated 0 (Prisma.with_count Scenario.boiled_eggs)))%Q.
Proof.
  split.
  - apply (recencyScore_edges (30 * 86400000) (Prisma.with_count Scenario.carbonara)).
    cbn. lia.
  - apply (recencyScore_edges 0 (Prisma.with_count Scenario.boiled_eggs)).
    cbn. lia.
Defined.

Lemma avgRating_bounds (r : Prisma.Recipe) :
  (forall x, In x (Prisma.ratings (Prisma.row r)) -> (0 <= Prisma.rating x <= 5)%Z) ->
  (0 <= avgRating r <= 5)%Q.
Proof.
  intros Hb. unfold avgRating.
  destruct (Prisma.ratings (Prisma.row r)) as [|x rs] eqn:Hrs; [cbn; lra|].
  replace (0 <? length (x :: rs))%nat with true by reflexivity.
  apply (mean_between _ _ 0 5); [cbn [length]; lia|].
  apply sum_ratings_bounds. exact Hb.
Qed.

(** X19. Engagement outweighs everything else: of two recipes with
    ratings between 0 and 5, the one with at least three more ratings and
    comments gets the strictly higher trend score, whatever their ages
    and ratings (the other one not being created in the future). *)
Theorem engagement_dominates (now_a now_b : Z) (a b : Prisma.Recipe) :
  (forall x, In x (Prisma.ratings (Prisma.row a)) -> (0 <= Prisma.rating x <= 5)%Z) ->
  (forall x, In x (Prisma.ratings (Prisma.row b)) -> (0 <= Prisma.rating x <= 5)%Z) ->
  (Prisma.createdAt (Prisma.row b) <= now_b)%Z ->
  engagementScore b + 3 <= engagementScore a ->
  (trendScore (score_recipe now_b b) < trendScore (score_recipe now_a a))%Q.
Proof.
  intros Ha Hb Hpast Heng.
  unfold score_recipe, calculateTrendScore; cbn [trendScore snd].
  pose proof (recencyScore_nonneg (daysSinceCreated now_a a)) as Hra.
  pose proof (recencyScore_le_1 _ (days_nonneg _ _ Hpast)) as Hrb.
  pose proof (avgRating_bounds a Ha) as [Haa _].
  pose proof (avgRating_bounds b Hb) as [_ Hab].
  assert (He : (inject_Z (Z.of_nat (engagementScore b)) + 3
                <= inject_Z (Z.of_nat (engagementScore a)))%Q).
  { change 3%Q with (inject_Z 3). rewrite <- inject_Z_plus, <- Zle_Qle. lia. }
  assert (Hva : (0 <= ratingScore (avgRating a))%Q)
    by (unfold ratingScore; apply Qle_shift_div_l; [reflexivity | lra]).
  assert (Hvb : (ratingScore (avgRating b) <= 1)%Q)
    by (unfold ratingScore; apply Qle_shift_div_r; [reflexivity | lra]).
  set (ra := recencyScore (daysSinceCreated now_a a)) in *.
  set (rb := recencyScore (daysSinceCreated now_b b)) in *.
  set (ea := inject_Z (Z.of_nat (engagementScore a))) in *.
  set (eb := inject_Z (Z.of_nat (engagementScore b))) in *.
  set (va := ratingScore (avgRating a)) in *.
  set (vb := ratingScore (avgRating b)) in *.
  lra.
Qed.

Lemma engagement_dominates_witness :
  (trendScore (score_recipe (100 * 86400000)
     (Prisma.with_count (Scenario.recipe_row "fresh" "Fresh" true (100 * 86400000))))
   < trendScore (score_recipe (100 * 86400000) (Prisma.with_count Scenario.old_favourite)))%Q.
Proof.
  apply (engagement_dominates (100 * 86400000) (100 * 86400000)
           (Prisma.with_count Scenario.old_favourite)
           (Prisma.with_count (Scenario.recipe_row "fresh" "Fresh" true (100 * 86400000)))).
  - intros x [<-|[<-|[]]]; cbn; lia.
  - intros x [].
  - cbn. lia.
  - cbn. lia.
Defined.

(** ** Nutrition *)

(** X20. The health score is always between 5 and 10, and exactly 5 for
    a recipe without calories: the lower clamp at 1 is never reached. *)
Theorem calculateHealthScore_range (n : Nutrition) :
  (5 <= calculateHealthScore n <= 10)%Z
  /\ (~ (0 < calories n)%Q -> calculateHealthScore n = 5%Z).
Proof.
  unfold calculateHealthScore. split.
  - destruct (Qlt_bool 0 (calories n)); [|lia].
    repeat match goal with
           | |- context [if ?c then 1%Z else 0%Z] => destruct c
           end; lia.
  - intros Hcal. unfold Qlt_bool.
    destruct (Qle_bool (calories n) 0) eqn:Hle; [reflexivity|].
    exfalso. apply Hcal. apply Qnot_le_lt. intros H.
    apply Qle_bool_iff in H. congruence.
Qed.

Lemma calculateHealthScore_range_witness :
  calculateHealthScore (nutrition 0 0 0 0) = 5%Z.
Proof.
  apply (calculateHealthScore_range (nutrition 0 0 0 0)).
  cbn. intros H. discriminate H.
Defined.

Lemma append_cons (c : ascii) (a b : string) :
  (String c a ++ b)%string = String c (a ++ b)%string.
Proof. reflexivity. Qed.

Lemma append_nil (b : string) : (EmptyString ++ b)%string = b.
Proof. reflexivity. Qed.

Lemma append_assoc3 (a b c : string) :
  ((a ++ b) ++ c)%string = (a ++ (b ++ c))%string.
Proof.
  induction a as [|x a IH]; [reflexivity|].
  rewrite !append_cons. now rewrite IH.
Qed.

Lemma prefix_append (needle rest : string) :
  String.prefix needle (needle ++ rest) = true.
Proof.
  induction needle as [|c needle IH].
  - rewrite append_nil. now destruct rest.
  - rewrite append_cons. cbn [String.prefix].
    destruct (ascii_dec c c); [exact IH | congruence].
Qed.

Lemma includes_prefix_true (hay needle : string) :
  String.prefix needle hay = true -> Js.includes hay needle = true.
Proof. intros H. destruct hay; cbn [Js.includes]; now rewrite H. Qed.

Lemma includes_skip (front hay needle : string) :
  Js.includes hay needle = true -> Js.includes (front ++ hay) needle = true.
Proof.
  intros H. induction front as [|c front IH].
  - now rewrite append_nil.
  - rewrite append_cons. cbn [Js.includes]. rewrite IH. apply orb_true_r.
Qed.

Lemma prefix_split (p hay : string) :
  String.prefix p hay = true -> exists rest, hay = (p ++ rest)%string.
Proof.
  revert hay; induction p as [|c p IH]; intros hay H.
  - exists hay. now rewrite append_nil.
  - destruct hay as [|c' hay]; [discriminate|]. cbn [String.prefix] in H.
    destruct (ascii_dec c c') as [<-|]; [|discriminate].
    destruct (IH _ H) as [rest ->]. exists rest. now rewrite append_cons.
Qed.

Lemma includes_tail (hay front back : string) :
  Js.includes hay (front ++ back) = true -> Js.includes hay back = true.
Proof.
  assert (Hpre : forall h, String.prefix (front ++ back) h = true ->
                           Js.includes h back = true).
  { intros h Hh. apply prefix_split in Hh as [rest ->].
    rewrite append_assoc3.
    apply includes_skip, includes_prefix_true, prefix_append. }
  induction hay as [|c hay IH]; cbn [Js.includes]; intros H.
  - rewrite orb_false_r in H. apply (Hpre EmptyString H).
  - apply orb_true_iff in H as [H|H].
    + apply (Hpre _ H).
    + rewrite (IH H). apply orb_true_r.
Qed.

(** X21. The nutrition table is searched in key order for the first key
    the ingredient name contains, so its entries "sweet potato" and
    "olive oil" are never used: a name containing them already contains
    the earlier keys "potato" and "oil".  100 g of "Sweet Potato" are
    counted with the 77 kcal of the potato entry. *)
Theorem shadowed_nutrition_entries (name : string) :
  matching_key name <> Some "sweet potato"
  /\ matching_key name <> Some "olive oil"
  /\ (calories (getIngredientNutrition "Sweet Potato" 100) == 77)%Q.
Proof.
  assert (Hshadow : matching_key name <> Some "sweet potato"
                    /\ matching_key name <> Some "olive oil");
    [|destruct Hshadow; repeat split; auto; vm_compute; reflexivity].
  unfold matching_key, nutritionDB; cbn [map fst List.find].
  pose proof (includes_tail name "sweet " "potato") as Hpotato.
  pose proof (includes_tail name "olive " "oil") as Hoil.
  change ("sweet " ++ "potato")%string with "sweet potato" in Hpotato.
  change ("olive " ++ "oil")%string with "olive oil" in Hoil.
  split;
    repeat match goal with
           | |- context [if Js.includes name ?k then _ else _] =>
               destruct (Js.includes name k) eqn:?; [try discriminate|]
           end;
    try discriminate; try (specialize (Hpotato eq_refl); congruence);
    try (specialize (Hoil eq_refl); congruence).
Qed.

(** ** Calls to the AI service *)

Lemma retry_sleeps_bound {T : Type} (operation : nat -> Result T) (fallbackValue : T) :
  (fold_right Z.add 0 (snd (executeOpenAICall operation fallbackValue)) <= 3000)%Z.
Proof.
  unfold executeOpenAICall, MAX_RETRIES. cbn [retry_from].
  destruct (operation 1); [apply Z.leb_le; reflexivity|].
  destruct (operation 2); [apply Z.leb_le; reflexivity|].
  destruct (operation 3); apply Z.leb_le; reflexivity.
Qed.

Lemma executeOpenAICall_all_fail {T : Type} (operation : nat -> Result T) (fallbackValue : T) :
  (forall k, 1 <= k <= 3 -> failed (operation k)) ->
  executeOpenAICall operation fallbackValue = (fallbackValue, [1000; 2000]%Z).
Proof.
  intros Hall.
  pose proof (Hall 1 ltac:(lia)) as H1. pose proof (Hall 2 ltac:(lia)) as H2.
  pose proof (Hall 3 ltac:(lia)) as H3.
  unfold executeOpenAICall, MAX_RETRIES. cbn [retry_from].
  destruct (operation 1); [destruct H1|].
  destruct (operation 2); [destruct H2|].
  destruct (operation 3); [destruct H3|]. reflexivity.
Qed.

(** X22. [executeOpenAICall] never raises and makes at most three
    attempts: it answers the result of the first attempt that succeeds,
    and the fallback value exactly when the first three attempts all
    fail; outcomes of later attempts never matter, and the delays slept
    in between add up to at most 3000 ms. *)
Theorem executeOpenAICall_retries {T : Type} (operation : nat -> Result T) (fallbackValue : T) :
  (forall k result,
      1 <= k <= 3 ->
      (forall j, 1 <= j < k -> failed (operation j)) ->
      operation k = Ok result ->
      fst (executeOpenAICall operation fallbackValue) = result)
  /\ ((forall k, 1 <= k <= 3 -> failed (operation k)) ->
      executeOpenAICall operation fallbackValue = (fallbackValue, [1000; 2000]%Z))
  /\ (forall other : nat -> Result T,
      (forall k, 1 <= k <= 3 -> other k = operation k) ->
      executeOpenAICall other fallbackValue = executeOpenAICall operation fallbackValue)
  /\ (fold_right Z.add 0 (snd (executeOpenAICall operation fallbackValue)) <= 3000)%Z.
Proof.
  split; [|split; [|split]].
  - intros k result Hk Hbefore Hok.
    unfold executeOpenAICall, MAX_RETRIES. cbn [retry_from].
    assert (Hcases : k = 1 \/ k = 2 \/ k = 3) by lia.
    destruct Hcases as [-> | [-> | ->]].
    + now rewrite Hok.
    + pose proof (Hbefore 1 ltac:(lia)) as H1.
      destruct (operation 1); [destruct H1|]. now rewrite Hok.
    + pose proof (Hbefore 1 ltac:(lia)) as H1. pose proof (Hbefore 2 ltac:(lia)) as H2.
      destruct (operation 1); [destruct H1|].
      destruct (operation 2); [destruct H2|]. now rewrite Hok.
  - apply executeOpenAICall_all_fail.
  - intros other Hsame.
    unfold executeOpenAICall, MAX_RETRIES. cbn [retry_from].
    now rewrite (Hsame 1), (Hsame 2), (Hsame 3) by lia.
  - apply retry_sleeps_bound.
Qed.

Lemma executeOpenAICall_retries_witness :
  fst (executeOpenAICall
         (fun k => if (k <? 3)%nat then Err (ConnectionError "timeout") else Ok "tips")
         "fallback tips") = "tips".
Proof.
  apply (proj1 (executeOpenAICall_retries
           (fun k => if (k <? 3)%nat then Err (ConnectionError "timeout") else Ok "tips")
           "fallback tips") 3 "tips").
  - lia.
  - intros j Hj. assert (Hc : j = 1 \/ j = 2) by lia. destruct Hc as [-> | ->]; exact I.
  - reflexivity.
Defined.

(** X23. [getCachedOrExecute] stores a successful result under its key
    and answers it on every later call for that key without looking at
    the operation, until the entry expires; a failing operation is passed
    on and caches nothing; other keys are never touched. *)
Theorem getCachedOrExecute_caches {T : Type} (cache : gmap string T) (cacheKey : string)
    (operation : Result T) :
  cache !! cacheKey = None ->
  match operation with
  | Ok result =>
      fst (getCachedOrExecute cache cacheKey operation) = Ok result
      /\ (forall later : Result T,
            getCachedOrExecute (snd (getCachedOrExecute cache cacheKey operation))
                               cacheKey later
            = (Ok result, snd (getCachedOrExecute cache cacheKey operation)))
      /\ cache_expire (snd (getCachedOrExecute cache cacheKey operation)) cacheKey = cache
  | Err error =>
      getCachedOrExecute cache cacheKey operation = (Err error, cache)
  end
  /\ (forall other, other <> cacheKey ->
        snd (getCachedOrExecute cache cacheKey operation) !! other = cache !! other).
Proof.
  intros Hmiss.
  destruct operation as [result|error].
  - assert (Hrun : getCachedOrExecute cache cacheKey (Ok result)
                   = (Ok result, <[cacheKey := result]> cache))
      by (unfold getCachedOrExecute; now rewrite Hmiss).
    rewrite Hrun; cbn [fst snd].
    split; [|intros other Hother; apply lookup_insert_ne; congruence].
    split; [reflexivity|]. split.
    + intros later. unfold getCachedOrExecute. now rewrite lookup_insert_eq.
    + unfold cache_expire. now apply delete_insert_id.
  - assert (Hrun : getCachedOrExecute cache cacheKey (Err error) = (Err error, cache))
      by (unfold getCachedOrExecute; now rewrite Hmiss).
    rewrite Hrun; cbn [fst snd]. split; [reflexivity|]. reflexivity.
Qed.

Lemma getCachedOrExecute_caches_witness :
  getCachedOrExecute (snd (getCachedOrExecute (∅ : gmap string string) "improve_r1" (Ok "tips")))
                     "improve_r1" (Err (ConnectionError "timeout"))
  = (Ok "tips", snd (getCachedOrExecute (∅ : gmap string string) "improve_r1" (Ok "tips"))).
Proof.
  destruct (getCachedOrExecute_caches (∅ : gmap string string) "improve_r1" (Ok "tips"))
    as [(_ & Hlater & _) _]; [reflexivity|].
  apply Hlater.
Defined.

(** X24. An outage is remembered: when the entry is missing and the
    first three attempts fail, the cached AI call answers the fallback
    value and caches it, so every later call for the key answers the
    fallback without an attempt, whatever the service would answer, until
    the entry expires. *)
Theorem fallback_is_cached {T : Type} (cache : gmap string T) (cacheKey : string)
    (operation : nat -> Result T) (fallbackValue : T) :
  cache !! cacheKey = None ->
  (forall k, 1 <= k <= 3 -> failed (operation k)) ->
  fst (cachedOpenAICall cache cacheKey operation fallbackValue) = Ok fallbackValue
  /\ (forall (later : nat -> Result T) (laterFallback : T),
        cachedOpenAICall (snd (cachedOpenAICall cache cacheKey operation fallbackValue))
                         cacheKey later laterFallback
        = (Ok fallbackValue, snd (cachedOpenAICall cache cacheKey operation fallbackValue)))
  /\ (forall (later : nat -> Result T) (laterFallback : T),
        fst (cachedOpenAICall
               (cache_expire (snd (cachedOpenAICall cache cacheKey operation fallbackValue))
                             cacheKey)
               cacheKey later laterFallback)
        = Ok (fst (executeOpenAICall later laterFallback))).
Proof.
  intros Hmiss Hfail.
  pose proof (executeOpenAICall_all_fail operation fallbackValue Hfail) as Hfb.
  assert (Hrun : cachedOpenAICall cache cacheKey operation fallbackValue
                 = (Ok fallbackValue, <[cacheKey := fallbackValue]> cache))
    by (unfold cachedOpenAICall, getCachedOrExecute; rewrite Hfb, Hmiss; reflexivity).
  rewrite Hrun; cbn [fst snd].
  split; [reflexivity|]. split.
  - intros later laterFallback. unfold cachedOpenAICall, getCachedOrExecute.
    now rewrite lookup_insert_eq.
  - intros later laterFallback. unfold cachedOpenAICall, cache_expire, getCachedOrExecute.
    now rewrite lookup_delete_eq.
Qed.

Lemma fallback_is_cached_witness :
  fst (cachedOpenAICall (∅ : gmap string string) "improve_r1"
         (fun _ => Err (ConnectionError "timeout")) "fallback tips")
  = Ok "fallback tips".
Proof.
  apply (fallback_is_cached (∅ : gmap string string) "improve_r1"
           (fun _ => Err (ConnectionError "timeout")) "fallback tips").
  - reflexivity.
  - intros k _. exact I.
Defined.
